(** * Operator reduction of propositional formulas (propositions/operators.py)

    A shallow embedding of the five conversions [to_not_and_or], [to_not_and],
    [to_nand], [to_implies_not] and [to_implies_false], together with the part
    of the formula class and of the truth-table evaluator that they rely on. *)

From Stdlib Require Import String Ascii Bool Arith Lia.
From stdpp Require Import base option strings gmap.

Local Open Scope string_scope.

(* [set_solver] clears hypotheses it has already substituted away. *)
#[local] Set Warnings "-clear-no-such-hyp".

(** ** Formula trees *)

(** Modelled from the spec: the Formula class (propositions/syntax.py) is not
    among the sources.  Section 3: a node is a constant or a variable (no
    operand), a unary node (one operand) or a binary node (two operands).
    operators.py reads the tag of a node as the string [formula.root] and
    its operands as [formula.first] and [formula.second]. *)
Inductive Formula : Type :=
| Formula1 (root : string)
| Formula2 (root : string) (first : Formula)
| Formula3 (root : string) (first second : Formula).

Definition root (formula : Formula) : string :=
  match formula with
  | Formula1 r | Formula2 r _ | Formula3 r _ _ => r
  end.

Module Syntax.

Definition is_digit (c : ascii) : bool :=
  (48 <=? nat_of_ascii c)%nat && (nat_of_ascii c <=? 57)%nat.

Fixpoint isdecimal (s : string) : bool :=
  match s with
  | EmptyString => true
  | String c rest => is_digit c && isdecimal rest
  end.

(** Membership of a string in a literal list ([x in [...]]). *)
Definition str_in (s : string) (l : list string) : bool :=
  existsb (String.eqb s) l.

End Syntax.

(** Modelled from the spec: [is_variable] (propositions/syntax.py) is not
    among the sources.  The spec leaves variable names opaque (section 3) and
    uses the names p and q; the model takes the convention of the course
    library, a letter between p and z followed by decimal digits, under which
    p and q are variables and no operator or constant tag is. *)
Definition is_variable (s : string) : bool :=
  match s with
  | EmptyString => false
  | String c rest =>
      (nat_of_ascii "p" <=? nat_of_ascii c)%nat
      && (nat_of_ascii c <=? nat_of_ascii "z")%nat
      && Syntax.isdecimal rest
  end.

(** Modelled from the spec: [is_constant] is not among the sources.  Section 3:
    the constants are true and false, tagged T and F in operators.py. *)
Definition is_constant (s : string) : bool := (s =? "T") || (s =? "F").

(** Modelled from the spec: [is_unary] is not among the sources.  Section 3:
    NOT is the only unary tag, written ~ in operators.py. *)
Definition is_unary (s : string) : bool := (s =? "~").

(** Modelled from the spec: [is_binary] is not among the sources.  Section 3:
    the binary tags are AND, OR, IMPLIES, XOR, IFF, NAND and NOR, the seven
    strings listed at operators.py line 42. *)
Definition is_binary (s : string) : bool :=
  Syntax.str_in s ["&"; "|"; "->"; "+"; "<->"; "-&"; "-|"].

(** Modelled from the spec: the constructor of the Formula class is not among
    the sources.  Section 3: the tag of a node determines its arity exactly
    (constant and variable: 0, unary: 1, binary: 2); any other combination
    of tag and operands is rejected (the result is [None]). *)
Definition new_Formula (r : string) (first second : option Formula)
  : option Formula :=
  if is_variable r || is_constant r then
    match first, second with
    | None, None => Some (Formula1 r)
    | _, _ => None
    end
  else if is_unary r then
    match first, second with
    | Some a, None => Some (Formula2 r a)
    | _, _ => None
    end
  else if is_binary r then
    match first, second with
    | Some a, Some b => Some (Formula3 r a b)
    | _, _ => None
    end
  else None.

(** The three call shapes [Formula(r)], [Formula(r, a)], [Formula(r, a, b)]. *)
Definition leaf (r : string) : option Formula := new_Formula r None None.
Definition unary (r : string) (a : Formula) : option Formula :=
  new_Formula r (Some a) None.
Definition binary (r : string) (a b : Formula) : option Formula :=
  new_Formula r (Some a) (Some b).

(** The formulas that the constructor can build: the well-formed formulas of
    the spec, in which the tag of each node determines its arity. *)
Fixpoint well_formed (formula : Formula) : bool :=
  match formula with
  | Formula1 r => is_variable r || is_constant r
  | Formula2 r a =>
      negb (is_variable r || is_constant r) && is_unary r && well_formed a
  | Formula3 r a b =>
      negb (is_variable r || is_constant r) && negb (is_unary r)
      && is_binary r && well_formed a && well_formed b
  end.

(** ** to_not_and_or *)

(** The argument is a [Formula]; the test [type(formula) == bool] of line 25
    is false for it and is left out.  A test that falls through in the
    source falls through to [binary_case] and [fall_through] here. *)
Fixpoint to_not_and_or (formula : Formula) : option Formula :=
  let rt := root formula in
  let fall_through := Some formula in
  let binary_case :=
    if is_binary rt then
      if Syntax.str_in rt ["&"; "|"; "->"; "+"; "<->"; "-&"; "-|"] then
        match formula with
        | Formula3 _ first second =>
            left ← to_not_and_or first;
            right ← to_not_and_or second;
            if (rt =? "&") || (rt =? "|") then
              binary rt left right
            else if rt =? "->" then
              nl ← unary "~" left;
              binary "|" nl right
            else if rt =? "+" then
              nr ← unary "~" right;
              a ← binary "&" left nr;
              nl ← unary "~" left;
              b ← binary "&" nl right;
              binary "|" a b
            else if rt =? "<->" then
              nl ← unary "~" left;
              a ← binary "|" nl right;
              nr ← unary "~" right;
              b ← binary "|" left nr;
              binary "&" a b
            else if rt =? "-&" then
              a ← binary "&" left right;
              unary "~" a
            else if rt =? "-|" then
              a ← binary "|" left right;
              unary "~" a
            else fall_through
        | _ => None
        end
      else fall_through
    else fall_through in
  if is_constant rt then
    if rt =? "T" then
      p ← leaf "p";
      p' ← leaf "p";
      np ← unary "~" p';
      binary "|" p np
    else
      p ← leaf "p";
      p' ← leaf "p";
      np ← unary "~" p';
      binary "&" p np
  else if is_variable rt then Some formula
  else if is_unary rt then
    if rt =? "~" then
      match formula with
      | Formula2 _ first | Formula3 _ first _ =>
          inner ← to_not_and_or first;
          unary "~" inner
      | Formula1 _ => None
      end
    else binary_case
  else binary_case.

(** ** to_not_and *)

Fixpoint convert_or (expr : Formula) : option Formula :=
  let rt := root expr in
  if is_variable rt then Some expr
  else if is_unary rt then
    match expr with
    | Formula2 _ first | Formula3 _ first _ =>
        inner ← convert_or first;
        unary "~" inner
    | Formula1 _ => None
    end
  else if is_binary rt then
    match expr with
    | Formula3 _ first second =>
        left ← convert_or first;
        right ← convert_or second;
        if rt =? "&" then binary "&" left right
        else if rt =? "|" then
          nl ← unary "~" left;
          nr ← unary "~" right;
          a ← binary "&" nl nr;
          unary "~" a
        else Some expr
    | _ => None
    end
  else Some expr.

Definition to_not_and (formula : Formula) : option Formula :=
  f1 ← to_not_and_or formula;
  convert_or f1.

(** ** to_nand *)

Fixpoint convert_to_nand (expr : Formula) : option Formula :=
  let rt := root expr in
  if is_variable rt then Some expr
  else if is_unary rt then
    match expr with
    | Formula2 _ first | Formula3 _ first _ =>
        inner ← convert_to_nand first;
        binary "-&" inner inner
    | Formula1 _ => None
    end
  else if is_binary rt && (rt =? "&") then
    match expr with
    | Formula3 _ first second =>
        left ← convert_to_nand first;
        right ← convert_to_nand second;
        nand ← binary "-&" left right;
        binary "-&" nand nand
    | _ => None
    end
  else Some expr.

Definition to_nand (formula : Formula) : option Formula :=
  f1 ← to_not_and formula;
  convert_to_nand f1.

(** ** to_implies_not *)

Fixpoint convert_to_implies_not (expr : Formula) : option Formula :=
  let rt := root expr in
  if is_variable rt then Some expr
  else if is_unary rt then
    match expr with
    | Formula2 _ first | Formula3 _ first _ =>
        inner ← convert_to_implies_not first;
        unary "~" inner
    | Formula1 _ => None
    end
  else if is_binary rt then
    match expr with
    | Formula3 _ first second =>
        left ← convert_to_implies_not first;
        right ← convert_to_implies_not second;
        if rt =? "&" then
          nr ← unary "~" right;
          a ← binary "->" left nr;
          unary "~" a
        else if rt =? "|" then
          nl ← unary "~" left;
          binary "->" nl right
        else Some expr
    | _ => None
    end
  else Some expr.

Definition to_implies_not (formula : Formula) : option Formula :=
  f1 ← to_not_and_or formula;
  if is_constant (root f1) then
    if root f1 =? "T" then
      p ← leaf "p";
      binary "->" p p
    else
      p ← leaf "p";
      a ← binary "->" p p;
      unary "~" a
  else convert_to_implies_not f1.

(** ** to_implies_false *)

Fixpoint convert_to_implies_false (expr : Formula) : option Formula :=
  let rt := root expr in
  if is_variable rt then Some expr
  else if is_unary rt then
    match expr with
    | Formula2 _ first | Formula3 _ first _ =>
        inner ← convert_to_implies_false first;
        f ← leaf "F";
        binary "->" inner f
    | Formula1 _ => None
    end
  else if is_binary rt && (rt =? "->") then
    match expr with
    | Formula3 _ first second =>
        left ← convert_to_implies_false first;
        right ← convert_to_implies_false second;
        binary "->" left right
    | _ => None
    end
  else Some expr.

Definition to_implies_false (formula : Formula) : option Formula :=
  f1 ← to_implies_not formula;
  if is_constant (root f1) then
    if root f1 =? "T" then
      f ← leaf "F";
      f' ← leaf "F";
      binary "->" f f'
    else convert_to_implies_false f1
  else convert_to_implies_false f1.

(** The five operations, as one family. *)
Inductive transform : Type :=
| NotAndOr | NotAnd | Nand | ImpliesNot | ImpliesFalse.

Definition run (t : transform) : Formula -> option Formula :=
  match t with
  | NotAndOr => to_not_and_or
  | NotAnd => to_not_and
  | Nand => to_nand
  | ImpliesNot => to_implies_not
  | ImpliesFalse => to_implies_false
  end.

(** ** Tags, variables and truth values of a formula *)

(** Modelled from the spec: the method [operators] of the Formula class is not
    among the sources.  Section 8: the set of operator and constant tags
    that appear in a formula. *)
Fixpoint operators (formula : Formula) : gset string :=
  match formula with
  | Formula1 r => if is_constant r then {[ r ]} else ∅
  | Formula2 r a => {[ r ]} ∪ operators a
  | Formula3 r a b => {[ r ]} ∪ operators a ∪ operators b
  end.

(** Modelled from the spec: the method [variables] of the Formula class is not
    among the sources.  The set of variable names that appear in a formula. *)
Fixpoint variables (formula : Formula) : gset string :=
  match formula with
  | Formula1 r => if is_variable r then {[ r ]} else ∅
  | Formula2 _ a => variables a
  | Formula3 _ a b => variables a ∪ variables b
  end.

(** Modelled from the spec: an assignment of truth values to variable names
    (section 3). *)
Definition Model : Type := string -> bool.

Definition assign (x : string) (v : bool) (model : Model) : Model :=
  fun y => if y =? x then v else model y.

(** Modelled from the spec: the truth tables of the binary tags (glossary:
    NAND-op(a,b) is NOT(a AND b); section 8: XOR is true exactly when its
    operands differ). *)
Definition binary_value (op : string) (x y : bool) : bool :=
  if op =? "&" then x && y
  else if op =? "|" then x || y
  else if op =? "->" then implb x y
  else if op =? "+" then xorb x y
  else if op =? "<->" then Bool.eqb x y
  else if op =? "-&" then negb (x && y)
  else if op =? "-|" then negb (x || y)
  else false.

(** Modelled from the spec: the truth-table evaluator [evaluate]
    (propositions/semantics.py) is not among the sources.  The constants are
    true and false, a variable has the value the assignment gives it, NOT
    negates, and a binary node has the value of its truth table. *)
Fixpoint evaluate (formula : Formula) (model : Model) : bool :=
  match formula with
  | Formula1 r => if is_constant r then r =? "T" else model r
  | Formula2 _ a => negb (evaluate a model)
  | Formula3 r a b => binary_value r (evaluate a model) (evaluate b model)
  end.

(** Documented input and target alphabets of the five operations. *)
Definition full_alphabet : gset string :=
  {[ "T"; "F"; "~"; "&"; "|"; "->"; "+"; "<->"; "-&"; "-|" ]}.

Definition input_alphabet (t : transform) : gset string :=
  match t with
  | NotAndOr => full_alphabet
  | NotAnd => {[ "~"; "&"; "|" ]}
  | Nand => {[ "~"; "&" ]}
  | ImpliesNot => {[ "~"; "&"; "|" ]}
  | ImpliesFalse => {[ "->"; "~" ]}
  end.

Definition target_alphabet (t : transform) : gset string :=
  match t with
  | NotAndOr => {[ "~"; "&"; "|" ]}
  | NotAnd => {[ "~"; "&" ]}
  | Nand => {[ "-&" ]}
  | ImpliesNot => {[ "->"; "~" ]}
  | ImpliesFalse => {[ "->"; "F" ]}
  end.

(** ** What a correct reduction is *)

(** [reduces_to A formula result]: the operation returned a formula, which is
    well formed, uses tags of [A] only and has the truth table of [formula]. *)
Definition reduces_to (A : gset string) (formula : Formula)
    (result : option Formula) : Prop :=
  exists G,
    result = Some G /\ well_formed G = true /\ operators G ⊆ A
    /\ forall model, evaluate G model = evaluate formula model.

(** [operation] first applies [upstream] and then [convert] to its output,
    and it is a correct reduction of [F] to the alphabet [A]. *)
Definition reduces_after (upstream convert operation : Formula -> option Formula)
    (A : gset string) (F : Formula) : Prop :=
  (exists f1, upstream F = Some f1 /\ operation F = convert f1)
  /\ reduces_to A F (operation F).

(** ** Counting nodes *)

(** Nodes of the tree whose root is [tag]. *)
Fixpoint occurrences (tag : string) (formula : Formula) : nat :=
  (if root formula =? tag then 1 else 0)
  + match formula with
    | Formula1 _ => 0
    | Formula2 _ a => occurrences tag a
    | Formula3 _ a b => occurrences tag a + occurrences tag b
    end.

(** Nodes that apply an operator to operands. *)
Fixpoint operator_occurrences (formula : Formula) : nat :=
  match formula with
  | Formula1 _ => 0
  | Formula2 _ a => 1 + operator_occurrences a
  | Formula3 _ a b => 1 + operator_occurrences a + operator_occurrences b
  end.

(** [convert_to_nand] with its allocations made explicit: the second
    component is the number of [Formula('-&', ..)] objects constructed.  The
    object bound to [inner] (and to [nand]) is constructed once and used for
    both operands of the node built next. *)
Fixpoint convert_to_nand_counting (expr : Formula) : option (Formula * nat) :=
  let rt := root expr in
  if is_variable rt then Some (expr, 0)
  else if is_unary rt then
    match expr with
    | Formula2 _ first | Formula3 _ first _ =>
        '(inner, n) ← convert_to_nand_counting first;
        result ← binary "-&" inner inner;
        Some (result, n + 1)
    | Formula1 _ => None
    end
  else if is_binary rt && (rt =? "&") then
    match expr with
    | Formula3 _ first second =>
        '(left', n) ← convert_to_nand_counting first;
        '(right', m) ← convert_to_nand_counting second;
        nand ← binary "-&" left' right';
        result ← binary "-&" nand nand;
        Some (result, n + m + 2)
    | _ => None
    end
  else Some (expr, 0).

(** ** Measures, chains and output shapes *)

(** Height of the tree: the longest chain of nested operators. *)
Fixpoint depth (formula : Formula) : nat :=
  match formula with
  | Formula1 _ => 0
  | Formula2 _ a => S (depth a)
  | Formula3 _ a b => S (Nat.max (depth a) (depth b))
  end.

(** Whether a constant occurs in the formula. *)
Fixpoint has_constant (formula : Formula) : bool :=
  match formula with
  | Formula1 r => is_constant r
  | Formula2 _ a => has_constant a
  | Formula3 _ a b => has_constant a || has_constant b
  end.

(** The operations of [ts] applied one after the other, each to the output
    of the one before. *)
Fixpoint run_all (ts : list transform) (formula : Formula) : option Formula :=
  match ts with
  | [] => Some formula
  | t :: ts' => G ← run t formula; run_all ts' G
  end.


(** The formulas that [convert_to_implies_false] builds: a variable,
    [Formula('->', inner, Formula('F'))], or an implication of two such
    formulas. *)
Inductive implies_false_encoded : Formula -> Prop :=
| implies_false_encoded_variable x :
    is_variable x = true -> implies_false_encoded (Formula1 x)
| implies_false_encoded_not inner :
    implies_false_encoded inner ->
    implies_false_encoded (Formula3 "->" inner (Formula1 "F"))
| implies_false_encoded_implies left right :
    implies_false_encoded left -> implies_false_encoded right ->
    implies_false_encoded (Formula3 "->" left right).

(** * Properties *)

(** ** The scenarios of the specification *)

Example to_not_and_or_xor_p_q :
  to_not_and_or (Formula3 "+" (Formula1 "p") (Formula1 "q"))
  = Some (Formula3 "|"
            (Formula3 "&" (Formula1 "p") (Formula2 "~" (Formula1 "q")))
            (Formula3 "&" (Formula2 "~" (Formula1 "p")) (Formula1 "q"))).
Proof. reflexivity. Qed.

Example to_nand_and_p_q :
  to_nand (Formula3 "&" (Formula1 "p") (Formula1 "q"))
  = Some (Formula3 "-&" (Formula3 "-&" (Formula1 "p") (Formula1 "q"))
                        (Formula3 "-&" (Formula1 "p") (Formula1 "q"))).
Proof. reflexivity. Qed.

Example to_implies_false_not_p :
  to_implies_false (Formula2 "~" (Formula1 "p"))
  = Some (Formula3 "->" (Formula1 "p") (Formula1 "F")).
Proof. reflexivity. Qed.

(** ** Tags *)

Lemma is_unary_inv r : is_unary r = true -> r = "~".
Proof. unfold is_unary. apply String.eqb_eq. Qed.

Lemma is_constant_inv r : is_constant r = true -> r = "T" \/ r = "F".
Proof.
  unfold is_constant. rewrite orb_true_iff, !String.eqb_eq. tauto.
Qed.

Lemma is_binary_inv r :
  is_binary r = true ->
  r = "&" \/ r = "|" \/ r = "->" \/ r = "+" \/ r = "<->" \/ r = "-&" \/ r = "-|".
Proof.
  unfold is_binary, Syntax.str_in. cbn [existsb].
  rewrite !orb_true_iff, !String.eqb_eq. intuition discriminate.
Qed.

Lemma is_variable_not_tag r :
  is_variable r = true ->
  is_constant r = false /\ is_unary r = false /\ is_binary r = false.
Proof.
  intros Hv. repeat split.
  - destruct (is_constant r) eqn:E; [|done].
    apply is_constant_inv in E as [->| ->]; discriminate Hv.
  - destruct (is_unary r) eqn:E; [|done].
    apply is_unary_inv in E as ->; discriminate Hv.
  - destruct (is_binary r) eqn:E; [|done].
    apply is_binary_inv in E as [->|[->|[->|[->|[->|[->| ->]]]]]];
      discriminate Hv.
Qed.

(** ** Well-formed formulas, case by case *)

Lemma well_formed_induction (P : Formula -> Prop) :
  (forall x, is_variable x = true -> P (Formula1 x)) ->
  P (Formula1 "T") ->
  P (Formula1 "F") ->
  (forall a, well_formed a = true -> P a -> P (Formula2 "~" a)) ->
  (forall op a b,
      is_binary op = true ->
      well_formed a = true -> well_formed b = true ->
      P a -> P b -> P (Formula3 op a b)) ->
  forall formula, well_formed formula = true -> P formula.
Proof.
  intros Hvar HT HF Hnot Hbin.
  induction formula as [r | r a IHa | r a IHa b IHb]; cbn [well_formed]; intros Hwf.
  - destruct (is_variable r) eqn:Ev; [by apply Hvar|].
    cbn in Hwf. apply is_constant_inv in Hwf as [-> | ->]; assumption.
  - apply andb_true_iff in Hwf as [Hwf Ha].
    apply andb_true_iff in Hwf as [_ Hu].
    apply is_unary_inv in Hu as ->. auto.
  - apply andb_true_iff in Hwf as [Hwf Hb].
    apply andb_true_iff in Hwf as [Hwf Ha].
    apply andb_true_iff in Hwf as [_ Hop]. auto.
Qed.

(** ** The equations of [to_not_and_or], one per kind of node *)

Section ToNotAndOrEquations.
Variables a b : Formula.

Lemma to_not_and_or_variable x :
  is_variable x = true -> to_not_and_or (Formula1 x) = Some (Formula1 x).
Proof.
  intros Hv. destruct (is_variable_not_tag x Hv) as (Hc & _ & _).
  cbn [to_not_and_or root]. by rewrite Hc, Hv.
Qed.

Lemma to_not_and_or_not :
  to_not_and_or (Formula2 "~" a)
  = inner ← to_not_and_or a; Some (Formula2 "~" inner).
Proof. reflexivity. Qed.

Lemma to_not_and_or_and :
  to_not_and_or (Formula3 "&" a b)
  = left ← to_not_and_or a; right ← to_not_and_or b;
    Some (Formula3 "&" left right).
Proof. reflexivity. Qed.

Lemma to_not_and_or_or :
  to_not_and_or (Formula3 "|" a b)
  = left ← to_not_and_or a; right ← to_not_and_or b;
    Some (Formula3 "|" left right).
Proof. reflexivity. Qed.

Lemma to_not_and_or_implies :
  to_not_and_or (Formula3 "->" a b)
  = left ← to_not_and_or a; right ← to_not_and_or b;
    Some (Formula3 "|" (Formula2 "~" left) right).
Proof. reflexivity. Qed.

Lemma to_not_and_or_xor :
  to_not_and_or (Formula3 "+" a b)
  = left ← to_not_and_or a; right ← to_not_and_or b;
    Some (Formula3 "|" (Formula3 "&" left (Formula2 "~" right))
                       (Formula3 "&" (Formula2 "~" left) right)).
Proof. reflexivity. Qed.

Lemma to_not_and_or_iff :
  to_not_and_or (Formula3 "<->" a b)
  = left ← to_not_and_or a; right ← to_not_and_or b;
    Some (Formula3 "&" (Formula3 "|" (Formula2 "~" left) right)
                       (Formula3 "|" left (Formula2 "~" right))).
Proof. reflexivity. Qed.

Lemma to_not_and_or_nand :
  to_not_and_or (Formula3 "-&" a b)
  = left ← to_not_and_or a; right ← to_not_and_or b;
    Some (Formula2 "~" (Formula3 "&" left right)).
Proof. reflexivity. Qed.

Lemma to_not_and_or_nor :
  to_not_and_or (Formula3 "-|" a b)
  = left ← to_not_and_or a; right ← to_not_and_or b;
    Some (Formula2 "~" (Formula3 "|" left right)).
Proof. reflexivity. Qed.

End ToNotAndOrEquations.

Ltac well_formed_step :=
  cbn [well_formed];
  repeat match goal with
         | H : well_formed ?f = true |- context [well_formed ?f] => rewrite H
         end;
  reflexivity.

Ltac reduced :=
  eexists; split; [reflexivity|]; split; [|split];
  [ well_formed_step
  | cbn [operators]; set_solver
  | intros model; cbn ].

Ltac truth_table :=
  repeat match goal with
         | H : forall model : Model, evaluate _ model = _ |- _ => rewrite H; clear H
         end;
  repeat match goal with
         | |- context [evaluate ?f ?m] => destruct (evaluate f m)
         end;
  try reflexivity.

Lemma to_not_and_or_reduces formula :
  well_formed formula = true ->
  reduces_to {[ "~"; "&"; "|" ]} formula (to_not_and_or formula).
Proof.
  revert formula. apply well_formed_induction.
  - intros x Hx. rewrite to_not_and_or_variable by done.
    exists (Formula1 x). repeat split; cbn.
    + by rewrite Hx.
    + destruct (is_variable_not_tag x Hx) as (-> & _). set_solver.
  - reduced. by destruct (model "p").
  - reduced. by destruct (model "p").
  - intros a Ha (a' & Ea & Wa & Oa & Va).
    rewrite to_not_and_or_not, Ea. reduced. truth_table.
  - intros op a b Hop Ha Hb (a' & Ea & Wa & Oa & Va) (b' & Eb & Wb & Ob & Vb).
    apply is_binary_inv in Hop as [->|[->|[->|[->|[->|[->| ->]]]]]].
    + rewrite to_not_and_or_and, Ea, Eb. reduced. truth_table.
    + rewrite to_not_and_or_or, Ea, Eb. reduced. truth_table.
    + rewrite to_not_and_or_implies, Ea, Eb. reduced. truth_table.
    + rewrite to_not_and_or_xor, Ea, Eb. reduced. truth_table.
    + rewrite to_not_and_or_iff, Ea, Eb. reduced. truth_table.
    + rewrite to_not_and_or_nand, Ea, Eb. reduced. truth_table.
    + rewrite to_not_and_or_nor, Ea, Eb. reduced. truth_table.
Qed.

(** ** The equations of the four inner conversions *)

Section ConvertEquations.
Variables a b : Formula.

Lemma convert_or_variable x :
  is_variable x = true -> convert_or (Formula1 x) = Some (Formula1 x).
Proof. intros Hv. cbn [convert_or root]. by rewrite Hv. Qed.

Lemma convert_or_not :
  convert_or (Formula2 "~" a)
  = inner ← convert_or a; Some (Formula2 "~" inner).
Proof. reflexivity. Qed.

Lemma convert_or_and :
  convert_or (Formula3 "&" a b)
  = left ← convert_or a; right ← convert_or b;
    Some (Formula3 "&" left right).
Proof. reflexivity. Qed.

Lemma convert_or_or :
  convert_or (Formula3 "|" a b)
  = left ← convert_or a; right ← convert_or b;
    Some (Formula2 "~" (Formula3 "&" (Formula2 "~" left) (Formula2 "~" right))).
Proof. reflexivity. Qed.

Lemma convert_to_nand_variable x :
  is_variable x = true -> convert_to_nand (Formula1 x) = Some (Formula1 x).
Proof. intros Hv. cbn [convert_to_nand root]. by rewrite Hv. Qed.

Lemma convert_to_nand_not :
  convert_to_nand (Formula2 "~" a)
  = inner ← convert_to_nand a; Some (Formula3 "-&" inner inner).
Proof. reflexivity. Qed.

Lemma convert_to_nand_and :
  convert_to_nand (Formula3 "&" a b)
  = left ← convert_to_nand a; right ← convert_to_nand b;
    Some (Formula3 "-&" (Formula3 "-&" left right) (Formula3 "-&" left right)).
Proof. reflexivity. Qed.

Lemma convert_to_implies_not_variable x :
  is_variable x = true ->
  convert_to_implies_not (Formula1 x) = Some (Formula1 x).
Proof. intros Hv. cbn [convert_to_implies_not root]. by rewrite Hv. Qed.

Lemma convert_to_implies_not_not :
  convert_to_implies_not (Formula2 "~" a)
  = inner ← convert_to_implies_not a; Some (Formula2 "~" inner).
Proof. reflexivity. Qed.

Lemma convert_to_implies_not_and :
  convert_to_implies_not (Formula3 "&" a b)
  = left ← convert_to_implies_not a; right ← convert_to_implies_not b;
    Some (Formula2 "~" (Formula3 "->" left (Formula2 "~" right))).
Proof. reflexivity. Qed.

Lemma convert_to_implies_not_or :
  convert_to_implies_not (Formula3 "|" a b)
  = left ← convert_to_implies_not a; right ← convert_to_implies_not b;
    Some (Formula3 "->" (Formula2 "~" left) right).
Proof. reflexivity. Qed.

Lemma convert_to_implies_false_variable x :
  is_variable x = true ->
  convert_to_implies_false (Formula1 x) = Some (Formula1 x).
Proof. intros Hv. cbn [convert_to_implies_false root]. by rewrite Hv. Qed.

Lemma convert_to_implies_false_not :
  convert_to_implies_false (Formula2 "~" a)
  = inner ← convert_to_implies_false a;
    Some (Formula3 "->" inner (Formula1 "F")).
Proof. reflexivity. Qed.

Lemma convert_to_implies_false_implies :
  convert_to_implies_false (Formula3 "->" a b)
  = left ← convert_to_implies_false a; right ← convert_to_implies_false b;
    Some (Formula3 "->" left right).
Proof. reflexivity. Qed.

End ConvertEquations.

(** ** Formulas over a restricted alphabet *)

Lemma operators_unary_inv (A : gset string) r a :
  operators (Formula2 r a) ⊆ A -> r ∈ A /\ operators a ⊆ A.
Proof. cbn [operators]. set_solver. Qed.

Lemma operators_binary_inv (A : gset string) r a b :
  operators (Formula3 r a b) ⊆ A -> r ∈ A /\ operators a ⊆ A /\ operators b ⊆ A.
Proof. cbn [operators]. set_solver. Qed.

Lemma variable_reduces (A : gset string) x :
  is_variable x = true -> reduces_to A (Formula1 x) (Some (Formula1 x)).
Proof.
  intros Hx. exists (Formula1 x). repeat split; cbn.
  - by rewrite Hx.
  - destruct (is_variable_not_tag x Hx) as (-> & _). set_solver.
Qed.

(** Case analysis on a well-formed formula over the alphabet [A]: the tag of
    every operator or constant node is known to be in [A]. *)
Lemma alphabet_induction (A : gset string) (P : Formula -> Prop) :
  (forall x, is_variable x = true -> P (Formula1 x)) ->
  (forall c, is_constant c = true -> c ∈ A -> P (Formula1 c)) ->
  (forall a, "~" ∈ A -> P a -> P (Formula2 "~" a)) ->
  (forall op a b, is_binary op = true -> op ∈ A -> P a -> P b -> P (Formula3 op a b)) ->
  forall formula,
    well_formed formula = true -> operators formula ⊆ A -> P formula.
Proof.
  intros Hvar Hconst Hnot Hbin formula Hwf. revert formula Hwf.
  apply (well_formed_induction (fun f => operators f ⊆ A -> P f)).
  - auto.
  - intros H. apply Hconst; [done|]. cbn in H. set_solver.
  - intros H. apply Hconst; [done|]. cbn in H. set_solver.
  - intros a _ IH H. apply operators_unary_inv in H as [? ?]. auto.
  - intros op a b Hop _ _ IHa IHb H.
    apply operators_binary_inv in H as (? & ? & ?). auto.
Qed.

Ltac absurd_tag :=
  exfalso;
  match goal with
  | H : _ ∈ _ |- _ => clear - H; set_unfold; intuition discriminate
  end.

Ltac binary_tags H :=
  apply is_binary_inv in H as [->|[->|[->|[->|[->|[->| ->]]]]]];
  try absurd_tag.

Ltac constant_tags H :=
  apply is_constant_inv in H as [-> | ->]; try absurd_tag.

(** ** The inner conversions on their input alphabets *)

Lemma convert_or_reduces G :
  well_formed G = true -> operators G ⊆ {[ "~"; "&"; "|" ]} ->
  reduces_to {[ "~"; "&" ]} G (convert_or G).
Proof.
  revert G. apply alphabet_induction.
  - intros x Hx. rewrite convert_or_variable by done. by apply variable_reduces.
  - intros c Hc Hin. constant_tags Hc.
  - intros a _ (a' & Ea & Wa & Oa & Va).
    rewrite convert_or_not, Ea. reduced. truth_table.
  - intros op a b Hop Hin (a' & Ea & Wa & Oa & Va) (b' & Eb & Wb & Ob & Vb).
    binary_tags Hop.
    + rewrite convert_or_and, Ea, Eb. reduced. truth_table.
    + rewrite convert_or_or, Ea, Eb. reduced. truth_table.
Qed.

Lemma convert_to_nand_reduces G :
  well_formed G = true -> operators G ⊆ {[ "~"; "&" ]} ->
  reduces_to {[ "-&" ]} G (convert_to_nand G).
Proof.
  revert G. apply alphabet_induction.
  - intros x Hx. rewrite convert_to_nand_variable by done.
    by apply variable_reduces.
  - intros c Hc Hin. constant_tags Hc.
  - intros a _ (a' & Ea & Wa & Oa & Va).
    rewrite convert_to_nand_not, Ea. reduced. truth_table.
  - intros op a b Hop Hin (a' & Ea & Wa & Oa & Va) (b' & Eb & Wb & Ob & Vb).
    binary_tags Hop.
    rewrite convert_to_nand_and, Ea, Eb. reduced. truth_table.
Qed.

Lemma convert_to_implies_not_reduces G :
  well_formed G = true -> operators G ⊆ {[ "~"; "&"; "|" ]} ->
  reduces_to {[ "->"; "~" ]} G (convert_to_implies_not G).
Proof.
  revert G. apply alphabet_induction.
  - intros x Hx. rewrite convert_to_implies_not_variable by done.
    by apply variable_reduces.
  - intros c Hc Hin. constant_tags Hc.
  - intros a _ (a' & Ea & Wa & Oa & Va).
    rewrite convert_to_implies_not_not, Ea. reduced. truth_table.
  - intros op a b Hop Hin (a' & Ea & Wa & Oa & Va) (b' & Eb & Wb & Ob & Vb).
    binary_tags Hop.
    + rewrite convert_to_implies_not_and, Ea, Eb. reduced. truth_table.
    + rewrite convert_to_implies_not_or, Ea, Eb. reduced. truth_table.
Qed.

Lemma convert_to_implies_false_reduces G :
  well_formed G = true -> operators G ⊆ {[ "->"; "~" ]} ->
  reduces_to {[ "->"; "F" ]} G (convert_to_implies_false G).
Proof.
  revert G. apply alphabet_induction.
  - intros x Hx. rewrite convert_to_implies_false_variable by done.
    by apply variable_reduces.
  - intros c Hc Hin. constant_tags Hc.
  - intros a _ (a' & Ea & Wa & Oa & Va).
    rewrite convert_to_implies_false_not, Ea. reduced. truth_table.
  - intros op a b Hop Hin (a' & Ea & Wa & Oa & Va) (b' & Eb & Wb & Ob & Vb).
    binary_tags Hop.
    rewrite convert_to_implies_false_implies, Ea, Eb. reduced. truth_table.
Qed.

(** ** The five operations on every well-formed formula *)

Lemma reduces_to_bind (A B : gset string) formula result
    (k : Formula -> option Formula) :
  reduces_to A formula result ->
  (forall G, well_formed G = true -> operators G ⊆ A -> reduces_to B G (k G)) ->
  reduces_to B formula (result ≫= k).
Proof.
  intros (G & -> & WG & OG & VG) Hk.
  destruct (Hk G WG OG) as (H & EH & WH & OH & VH).
  exists H. cbn. repeat split; try done.
  intros model. by rewrite VH, VG.
Qed.

(** The root of a well-formed formula is a variable or one of its tags. *)
Lemma root_in_operators formula :
  well_formed formula = true ->
  is_variable (root formula) = true \/ root formula ∈ operators formula.
Proof.
  destruct formula as [r | r a | r a b]; cbn [well_formed root operators].
  - destruct (is_variable r); [by left|]. cbn. intros ->. right. set_solver.
  - intros _. right. set_solver.
  - intros _. right. set_solver.
Qed.

Lemma root_not_constant (A : gset string) G :
  well_formed G = true -> operators G ⊆ A ->
  "T" ∉ A -> "F" ∉ A ->
  is_constant (root G) = false.
Proof.
  intros WG OG HT HF.
  destruct (root_in_operators G WG) as [Hv | Hin].
  - by destruct (is_variable_not_tag _ Hv) as (-> & _).
  - destruct (is_constant (root G)) eqn:E; [|done].
    apply is_constant_inv in E as [E | E]; rewrite E in Hin; set_solver.
Qed.

Lemma to_not_and_reduces formula :
  well_formed formula = true ->
  reduces_to {[ "~"; "&" ]} formula (to_not_and formula).
Proof.
  intros Hwf. unfold to_not_and.
  eapply reduces_to_bind; [by apply to_not_and_or_reduces|].
  apply convert_or_reduces.
Qed.

Lemma to_nand_reduces formula :
  well_formed formula = true ->
  reduces_to {[ "-&" ]} formula (to_nand formula).
Proof.
  intros Hwf. unfold to_nand.
  eapply reduces_to_bind; [by apply to_not_and_reduces|].
  apply convert_to_nand_reduces.
Qed.

(** The guard of the special case of [to_implies_not] never holds. *)
Lemma to_implies_not_unfold formula :
  well_formed formula = true ->
  to_implies_not formula = to_not_and_or formula ≫= convert_to_implies_not.
Proof.
  intros Hwf. unfold to_implies_not.
  destruct (to_not_and_or_reduces formula Hwf) as (G & -> & WG & OG & _).
  cbn. rewrite (root_not_constant _ G WG OG); [done| |]; set_solver.
Qed.

Lemma to_implies_not_reduces formula :
  well_formed formula = true ->
  reduces_to {[ "->"; "~" ]} formula (to_implies_not formula).
Proof.
  intros Hwf. rewrite to_implies_not_unfold by done.
  eapply reduces_to_bind; [by apply to_not_and_or_reduces|].
  apply convert_to_implies_not_reduces.
Qed.

(** Nor does the guard of the special case of [to_implies_false]. *)
Lemma to_implies_false_unfold formula :
  well_formed formula = true ->
  to_implies_false formula = to_implies_not formula ≫= convert_to_implies_false.
Proof.
  intros Hwf. unfold to_implies_false.
  destruct (to_implies_not_reduces formula Hwf) as (G & -> & WG & OG & _).
  cbn. rewrite (root_not_constant _ G WG OG); [done| |]; set_solver.
Qed.

Lemma to_implies_false_reduces formula :
  well_formed formula = true ->
  reduces_to {[ "->"; "F" ]} formula (to_implies_false formula).
Proof.
  intros Hwf. rewrite to_implies_false_unfold by done.
  eapply reduces_to_bind; [by apply to_implies_not_reduces|].
  apply convert_to_implies_false_reduces.
Qed.

Create HintDb reduction.

#[local] Hint Resolve to_not_and_or_reduces to_not_and_reduces to_nand_reduces
  to_implies_not_reduces to_implies_false_reduces : reduction.

Lemma run_reduces t formula :
  well_formed formula = true ->
  reduces_to (target_alphabet t) formula (run t formula).
Proof.
  intros Hwf. destruct t; cbn [run target_alphabet]; auto with reduction.
Qed.

(** ** Truth values depend on the variables of the formula only *)

Lemma evaluate_agree formula (m1 m2 : Model) :
  well_formed formula = true ->
  (forall x, x ∈ variables formula -> m1 x = m2 x) ->
  evaluate formula m1 = evaluate formula m2.
Proof.
  intros Hwf. revert formula Hwf.
  apply (well_formed_induction
           (fun f => (forall x, x ∈ variables f -> m1 x = m2 x) ->
                     evaluate f m1 = evaluate f m2)).
  - intros x Hx H. destruct (is_variable_not_tag x Hx) as (Hc & _).
    cbn. rewrite Hc. apply H. cbn. rewrite Hx. set_solver.
  - done.
  - done.
  - intros a _ IH H. cbn. f_equal. apply IH. intros x Hx. apply H. by cbn.
  - intros op a b _ _ _ IHa IHb H. cbn [evaluate]. f_equal.
    + apply IHa. intros x Hx. apply H. cbn. set_solver.
    + apply IHb. intros x Hx. apply H. cbn. set_solver.
Qed.

Lemma evaluate_assign_fresh formula x v (model : Model) :
  well_formed formula = true -> x ∉ variables formula ->
  evaluate formula (assign x v model) = evaluate formula model.
Proof.
  intros Hwf Hx. apply evaluate_agree; [done|].
  intros y Hy. unfold assign.
  destruct (String.eqb_spec y x) as [-> | _]; [done | reflexivity].
Qed.

(** ** Formulas that are already reduced *)

Lemma to_not_and_or_fixed G :
  well_formed G = true -> operators G ⊆ {[ "~"; "&"; "|" ]} ->
  to_not_and_or G = Some G.
Proof.
  revert G. apply alphabet_induction.
  - apply to_not_and_or_variable.
  - intros c Hc Hin. constant_tags Hc.
  - intros a _ IHa. by rewrite to_not_and_or_not, IHa.
  - intros op a b Hop Hin IHa IHb. binary_tags Hop.
    + by rewrite to_not_and_or_and, IHa, IHb.
    + by rewrite to_not_and_or_or, IHa, IHb.
Qed.

Lemma convert_or_fixed G :
  well_formed G = true -> operators G ⊆ {[ "~"; "&" ]} ->
  convert_or G = Some G.
Proof.
  revert G. apply alphabet_induction.
  - apply convert_or_variable.
  - intros c Hc Hin. constant_tags Hc.
  - intros a _ IHa. by rewrite convert_or_not, IHa.
  - intros op a b Hop Hin IHa IHb. binary_tags Hop.
    by rewrite convert_or_and, IHa, IHb.
Qed.

Lemma to_not_and_fixed G :
  well_formed G = true -> operators G ⊆ {[ "~"; "&" ]} ->
  to_not_and G = Some G.
Proof.
  intros WG OG. unfold to_not_and.
  rewrite to_not_and_or_fixed; [|done|set_solver].
  cbn. by apply convert_or_fixed.
Qed.

(** ** Counting the NAND-op nodes *)

Lemma convert_to_nand_counting_result expr :
  fst <$> convert_to_nand_counting expr = convert_to_nand expr.
Proof.
  induction expr as [r | r a IHa | r a IHa b IHb];
    cbn [convert_to_nand_counting convert_to_nand root].
  - by repeat case_match.
  - destruct (is_variable r); [done|]. destruct (is_unary r).
    + rewrite <- IHa. destruct (convert_to_nand_counting a) as [[a' n]|]; [|done].
      cbn. by destruct (binary "-&" a' a').
    + by destruct (is_binary r && (r =? "&")).
  - destruct (is_variable r); [done|]. destruct (is_unary r).
    + rewrite <- IHa. destruct (convert_to_nand_counting a) as [[a' n]|]; [|done].
      cbn. by destruct (binary "-&" a' a').
    + destruct (is_binary r && (r =? "&")); [|done].
      rewrite <- IHa, <- IHb.
      destruct (convert_to_nand_counting a) as [[a' n]|]; [|done].
      destruct (convert_to_nand_counting b) as [[b' m]|]; [|done].
      cbn. destruct (binary "-&" a' b') as [d|]; [|done].
      cbn. by destruct (binary "-&" d d).
Qed.

Lemma convert_to_nand_counting_not a :
  convert_to_nand_counting (Formula2 "~" a)
  = '(inner, n) ← convert_to_nand_counting a;
    Some (Formula3 "-&" inner inner, n + 1).
Proof. reflexivity. Qed.

Lemma convert_to_nand_counting_and a b :
  convert_to_nand_counting (Formula3 "&" a b)
  = '(left', n) ← convert_to_nand_counting a;
    '(right', m) ← convert_to_nand_counting b;
    Some (Formula3 "-&" (Formula3 "-&" left' right') (Formula3 "-&" left' right'),
          n + m + 2).
Proof. reflexivity. Qed.

Lemma occurrences_not tag a :
  occurrences tag (Formula2 "~" a)
  = (if "~" =? tag then 1 else 0) + occurrences tag a.
Proof. reflexivity. Qed.

Lemma occurrences_binary tag op a b :
  occurrences tag (Formula3 op a b)
  = (if op =? tag then 1 else 0) + (occurrences tag a + occurrences tag b).
Proof. reflexivity. Qed.

Lemma pow4_pos k : 1 <= 4 ^ k.
Proof. induction k; cbn; lia. Qed.

(** The NAND count of the conversion of a formula over NOT and AND. *)
Lemma convert_to_nand_count G :
  well_formed G = true -> operators G ⊆ {[ "~"; "&" ]} ->
  exists H,
    convert_to_nand G = Some H
    /\ convert_to_nand_counting G
       = Some (H, occurrences "~" G + 2 * occurrences "&" G)
    /\ occurrences "~" G + 3 * occurrences "&" G <= occurrences "-&" H
    /\ occurrences "-&" H < 4 ^ operator_occurrences G.
Proof.
  revert G. apply alphabet_induction.
  - intros x Hx. exists (Formula1 x).
    rewrite convert_to_nand_variable by done.
    cbn [convert_to_nand_counting root occurrences operator_occurrences].
    rewrite Hx.
    assert ((x =? "~") = false) as ->.
    { apply String.eqb_neq. intros ->. discriminate Hx. }
    assert ((x =? "&") = false) as ->.
    { apply String.eqb_neq. intros ->. discriminate Hx. }
    assert ((x =? "-&") = false) as ->.
    { apply String.eqb_neq. intros ->. discriminate Hx. }
    cbn. repeat split; lia.
  - intros c Hc Hin. constant_tags Hc.
  - intros a _ (a' & Ea & Ca & La & Ua). exists (Formula3 "-&" a' a').
    rewrite convert_to_nand_not, Ea, convert_to_nand_counting_not, Ca.
    rewrite !occurrences_binary, !occurrences_not.
    cbn [operator_occurrences]. rewrite Nat.pow_add_r.
    change (4 ^ 1) with 4. cbn [String.eqb Ascii.eqb Bool.eqb mbind option_bind].
    repeat split; [do 2 f_equal; lia | lia | lia].
  - intros op a b Hop Hin (a' & Ea & Ca & La & Ua) (b' & Eb & Cb & Lb & Ub).
    binary_tags Hop.
    exists (Formula3 "-&" (Formula3 "-&" a' b') (Formula3 "-&" a' b')).
    rewrite convert_to_nand_and, Ea, Eb, convert_to_nand_counting_and, Ca.
    cbn [mbind option_bind]. rewrite Cb.
    rewrite !occurrences_binary.
    cbn [operator_occurrences]. rewrite !Nat.pow_add_r.
    change (4 ^ 1) with 4. cbn [String.eqb Ascii.eqb Bool.eqb mbind option_bind].
    pose proof (pow4_pos (operator_occurrences a)).
    pose proof (pow4_pos (operator_occurrences b)).
    repeat split; [do 2 f_equal; lia | lia | nia].
Qed.

(** * The claims *)

(** C1, as it stands, fails when the input itself mentions the variable p:
    the conversion of (p & T) is (p & (p | ~p)), whose truth value is the
    one given to p, so it is not the same under both bindings of p although
    the input contains a constant. *)
Lemma constant_idiom_shares_p :
  let F := Formula3 "&" (Formula1 "p") (Formula1 "T") in
  well_formed F = true
  /\ ("T" ∈ operators F)
  /\ exists G,
       to_not_and_or F = Some G
       /\ evaluate G (assign "p" true (fun _ => false))
          <> evaluate G (assign "p" false (fun _ => false)).
Proof.
  cbn zeta. split; [reflexivity|]. split.
  - cbn [operators]. change (is_constant "T") with true.
    change (is_constant "p") with false. set_solver.
  - eexists. split; [reflexivity|]. vm_compute. discriminate.
Qed.

(** C1 (amended): for every well-formed formula F, each of the five
    operations returns a formula G that has the truth value of F under every
    assignment; and when the variable p does not occur in F, the truth value
    of G is that of F whichever truth value p is bound to. *)
Theorem transforms_preserve_truth_table (t : transform) (F : Formula) :
  well_formed F = true ->
  exists G,
    run t F = Some G
    /\ (forall model, evaluate G model = evaluate F model)
    /\ ("p" ∉ variables F ->
        forall model v, evaluate G (assign "p" v model) = evaluate F model).
Proof.
  intros Hwf. destruct (run_reduces t F Hwf) as (G & EG & _ & _ & VG).
  exists G. split; [done|]. split; [done|].
  intros Hp model v. rewrite VG. by apply evaluate_assign_fresh.
Qed.

Lemma transforms_preserve_truth_table_witness :
  let F := Formula3 "<->" (Formula1 "q") (Formula1 "T") in
  well_formed F = true
  /\ ("p" ∉ variables F)
  /\ exists G,
       run ImpliesFalse F = Some G
       /\ (forall model, evaluate G model = evaluate F model)
       /\ (forall model v, evaluate G (assign "p" v model) = evaluate F model).
Proof.
  cbn zeta.
  assert (Hp : "p" ∉ variables (Formula3 "<->" (Formula1 "q") (Formula1 "T"))).
  { cbn [variables]. change (is_variable "q") with true.
    change (is_variable "T") with false. set_solver. }
  split; [reflexivity|]. split; [exact Hp|].
  destruct (transforms_preserve_truth_table ImpliesFalse
              (Formula3 "<->" (Formula1 "q") (Formula1 "T")) eq_refl)
    as (G & EG & VG & PG).
  exists G. split; [exact EG|]. split; [exact VG|]. exact (PG Hp).
Defined.

(** C2: for every well-formed formula F, the tags of the output of each
    operation lie in its target alphabet: ~ & | for to_not_and_or, ~ & for
    to_not_and, -& for to_nand, -> ~ for to_implies_not and -> F for
    to_implies_false. *)
Theorem transforms_target_alphabet (F : Formula) :
  well_formed F = true ->
  (exists G, to_not_and_or F = Some G /\ operators G ⊆ {[ "~"; "&"; "|" ]})
  /\ (exists G, to_not_and F = Some G /\ operators G ⊆ {[ "~"; "&" ]})
  /\ (exists G, to_nand F = Some G /\ operators G ⊆ {[ "-&" ]})
  /\ (exists G, to_implies_not F = Some G /\ operators G ⊆ {[ "->"; "~" ]})
  /\ (exists G, to_implies_false F = Some G /\ operators G ⊆ {[ "->"; "F" ]}).
Proof.
  intros Hwf.
  destruct (to_not_and_or_reduces F Hwf) as (G1 & E1 & _ & O1 & _).
  destruct (to_not_and_reduces F Hwf) as (G2 & E2 & _ & O2 & _).
  destruct (to_nand_reduces F Hwf) as (G3 & E3 & _ & O3 & _).
  destruct (to_implies_not_reduces F Hwf) as (G4 & E4 & _ & O4 & _).
  destruct (to_implies_false_reduces F Hwf) as (G5 & E5 & _ & O5 & _).
  repeat split; eexists; split; eassumption.
Qed.

Lemma transforms_target_alphabet_witness :
  let F := Formula3 "+" (Formula1 "x1") (Formula2 "~" (Formula1 "F")) in
  well_formed F = true
  /\ (exists G, to_not_and_or F = Some G /\ operators G ⊆ {[ "~"; "&"; "|" ]})
  /\ (exists G, to_not_and F = Some G /\ operators G ⊆ {[ "~"; "&" ]})
  /\ (exists G, to_nand F = Some G /\ operators G ⊆ {[ "-&" ]})
  /\ (exists G, to_implies_not F = Some G /\ operators G ⊆ {[ "->"; "~" ]})
  /\ (exists G, to_implies_false F = Some G /\ operators G ⊆ {[ "->"; "F" ]}).
Proof.
  cbn zeta. split; [reflexivity|].
  exact (transforms_target_alphabet
           (Formula3 "+" (Formula1 "x1") (Formula2 "~" (Formula1 "F")))
           eq_refl).
Defined.

(** C3: on the constant T, to_not_and_or returns (p | ~p); to_implies_not,
    however, returns (~p -> ~p) and not (p -> p): its test for a constant is
    made on the output of to_not_and_or, whose root is |. *)
Theorem to_implies_not_of_true :
  to_not_and_or (Formula1 "T")
  = Some (Formula3 "|" (Formula1 "p") (Formula2 "~" (Formula1 "p")))
  /\ to_implies_not (Formula1 "T")
     = Some (Formula3 "->" (Formula2 "~" (Formula1 "p"))
                           (Formula2 "~" (Formula1 "p")))
  /\ to_implies_not (Formula1 "T")
     <> Some (Formula3 "->" (Formula1 "p") (Formula1 "p")).
Proof. repeat split. discriminate. Qed.

(** C4: for every well-formed formula F, to_nand applied to the output of
    to_not_and applied to the output of to_not_and_or(F) returns the very
    formula that to_nand(F) returns, and this formula has the truth table
    of F. *)
Theorem to_nand_pipeline (F : Formula) :
  well_formed F = true ->
  exists G,
    to_nand F = Some G
    /\ (f1 ← to_not_and_or F; f2 ← to_not_and f1; to_nand f2) = Some G
    /\ forall model, evaluate G model = evaluate F model.
Proof.
  intros Hwf.
  destruct (to_not_and_or_reduces F Hwf) as (f1 & E1 & W1 & O1 & V1).
  destruct (convert_or_reduces f1 W1 O1) as (f2 & E2 & W2 & O2 & V2).
  destruct (convert_to_nand_reduces f2 W2 O2) as (G & EG & WG & OG & VG).
  exists G. unfold to_nand at 1. unfold to_not_and at 1.
  rewrite E1. cbn [mbind option_bind]. rewrite E2. cbn [mbind option_bind].
  split; [exact EG|]. split.
  - unfold to_not_and. rewrite (to_not_and_or_fixed f1 W1 O1).
    cbn [mbind option_bind]. rewrite E2. cbn [mbind option_bind].
    unfold to_nand. rewrite (to_not_and_fixed f2 W2 O2). exact EG.
  - intros model. by rewrite VG, V2, V1.
Qed.

Lemma to_nand_pipeline_witness :
  let F := Formula3 "->" (Formula1 "T") (Formula3 "-|" (Formula1 "p") (Formula1 "q")) in
  well_formed F = true
  /\ exists G,
       to_nand F = Some G
       /\ (f1 ← to_not_and_or F; f2 ← to_not_and f1; to_nand f2) = Some G
       /\ forall model, evaluate G model = evaluate F model.
Proof.
  cbn zeta. split; [reflexivity|].
  exact (to_nand_pipeline
           (Formula3 "->" (Formula1 "T")
              (Formula3 "-|" (Formula1 "p") (Formula1 "q"))) eq_refl).
Defined.

(** C5: for every formula IMPLIES(a, b), to_not_and_or returns
    OR(NOT(a'), b') where a' and b' are the outputs for a and b; in
    particular (p -> q) is converted to (~p | q). *)
Theorem to_not_and_or_of_implies (a b : Formula) :
  well_formed (Formula3 "->" a b) = true ->
  (exists a' b',
      to_not_and_or a = Some a' /\ to_not_and_or b = Some b'
      /\ to_not_and_or (Formula3 "->" a b)
         = Some (Formula3 "|" (Formula2 "~" a') b'))
  /\ to_not_and_or (Formula3 "->" (Formula1 "p") (Formula1 "q"))
     = Some (Formula3 "|" (Formula2 "~" (Formula1 "p")) (Formula1 "q")).
Proof.
  intros Hwf. split; [|reflexivity].
  cbn [well_formed] in Hwf.
  apply andb_true_iff in Hwf as [Hwf Wb].
  apply andb_true_iff in Hwf as [_ Wa].
  destruct (to_not_and_or_reduces a Wa) as (a' & Ea & _).
  destruct (to_not_and_or_reduces b Wb) as (b' & Eb & _).
  exists a', b'. by rewrite to_not_and_or_implies, Ea, Eb.
Qed.

Lemma to_not_and_or_of_implies_witness :
  let a := Formula3 "+" (Formula1 "x") (Formula1 "y") in
  let b := Formula1 "F" in
  well_formed (Formula3 "->" a b) = true
  /\ exists a' b',
       to_not_and_or a = Some a' /\ to_not_and_or b = Some b'
       /\ to_not_and_or (Formula3 "->" a b)
          = Some (Formula3 "|" (Formula2 "~" a') b').
Proof.
  cbn zeta. split; [reflexivity|].
  exact (proj1 (to_not_and_or_of_implies
                  (Formula3 "+" (Formula1 "x") (Formula1 "y"))
                  (Formula1 "F") eq_refl)).
Defined.

Lemma well_formed_unary_inv r a :
  well_formed (Formula2 r a) = true -> r = "~" /\ well_formed a = true.
Proof.
  cbn [well_formed]. intros H.
  apply andb_true_iff in H as [H Wa]. apply andb_true_iff in H as [_ Hr].
  by apply is_unary_inv in Hr.
Qed.

Lemma well_formed_binary_inv r a b :
  well_formed (Formula3 r a b) = true ->
  is_binary r = true /\ well_formed a = true /\ well_formed b = true.
Proof.
  cbn [well_formed]. intros H.
  apply andb_true_iff in H as [H Wb]. apply andb_true_iff in H as [H Wa].
  by apply andb_true_iff in H as [_ Hr].
Qed.

Lemma to_nand_on_reduced G :
  well_formed G = true -> operators G ⊆ {[ "~"; "&" ]} ->
  to_nand G = convert_to_nand G.
Proof. intros WG OG. unfold to_nand. by rewrite to_not_and_fixed. Qed.

(** C6, as it stands, fails on NOT(p): the output (p -& p) has one NAND-op
    application (and one NAND-op node is constructed), whereas two times the
    number of operators of NOT(p) is two. *)
Lemma nand_count_of_negation :
  let G := Formula2 "~" (Formula1 "p") in
  well_formed G = true
  /\ operators G ⊆ {[ "~"; "&" ]}
  /\ exists H,
       to_nand G = Some H
       /\ convert_to_nand_counting G = Some (H, 1)
       /\ occurrences "-&" H = 1
       /\ occurrences "-&" H <> 2 * operator_occurrences G.
Proof.
  cbn zeta. split; [reflexivity|]. split.
  - cbn [operators]. change (is_constant "p") with false. set_solver.
  - exists (Formula3 "-&" (Formula1 "p") (Formula1 "p")).
    repeat split. vm_compute. discriminate.
Qed.

(** C6 (amended): for every formula G over only variables, NOT and AND, the
    conversion constructs exactly one NAND-op node for each NOT node of G
    and exactly two for each AND node.  In the output read as a tree, where
    the node used for both operands occurs twice, a variable has no NAND-op
    node, NOT(x) has 1 + 2n of them and AND(a, b) has 3 + 2(l + r), where
    n, l and r are the numbers for the outputs of x, a and b. *)
Theorem nand_applications (G : Formula) :
  well_formed G = true -> operators G ⊆ {[ "~"; "&" ]} ->
  exists H,
    to_nand G = Some H
    /\ convert_to_nand_counting G
       = Some (H, occurrences "~" G + 2 * occurrences "&" G)
    /\ match G with
       | Formula1 _ => occurrences "-&" H = 0
       | Formula2 _ x =>
           exists x', to_nand x = Some x'
             /\ occurrences "-&" H = 1 + 2 * occurrences "-&" x'
       | Formula3 _ a b =>
           exists a' b', to_nand a = Some a' /\ to_nand b = Some b'
             /\ occurrences "-&" H
                = 3 + 2 * (occurrences "-&" a' + occurrences "-&" b')
       end.
Proof.
  intros WG OG.
  destruct (convert_to_nand_count G WG OG) as (H & EH & CH & LH & UH).
  exists H. rewrite to_nand_on_reduced by done.
  split; [done|]. split; [done|].
  destruct G as [r | r x | r a b].
  - destruct (is_variable r) eqn:Hv.
    + rewrite convert_to_nand_variable in EH by done.
      injection EH as <-. cbn [occurrences root].
      assert ((r =? "-&") = false) as ->; [|done].
      apply String.eqb_neq. intros ->. discriminate Hv.
    + cbn [well_formed] in WG. rewrite Hv in WG. cbn in WG, OG.
      rewrite WG in OG. apply is_constant_inv in WG as [-> | ->]; set_solver.
  - apply well_formed_unary_inv in WG as [-> Wx].
    apply operators_unary_inv in OG as [_ Ox].
    destruct (convert_to_nand_count x Wx Ox) as (x' & Ex & _).
    exists x'. rewrite to_nand_on_reduced by done. split; [done|].
    rewrite convert_to_nand_not, Ex in EH. injection EH as <-.
    rewrite occurrences_binary. cbn [String.eqb Ascii.eqb Bool.eqb]. lia.
  - apply well_formed_binary_inv in WG as (Hr & Wa & Wb).
    apply operators_binary_inv in OG as (Hin & Oa & Ob).
    binary_tags Hr.
    destruct (convert_to_nand_count a Wa Oa) as (a' & Ea & _).
    destruct (convert_to_nand_count b Wb Ob) as (b' & Eb & _).
    exists a', b'. rewrite !to_nand_on_reduced by done.
    split; [done|]. split; [done|].
    rewrite convert_to_nand_and, Ea, Eb in EH. injection EH as <-.
    rewrite !occurrences_binary. cbn [String.eqb Ascii.eqb Bool.eqb]. lia.
Qed.

Lemma nand_applications_witness :
  let G := Formula3 "&" (Formula2 "~" (Formula1 "p")) (Formula1 "q") in
  well_formed G = true
  /\ operators G ⊆ {[ "~"; "&" ]}
  /\ exists H,
       to_nand G = Some H
       /\ convert_to_nand_counting G = Some (H, 3)
       /\ occurrences "-&" H = 5.
Proof.
  cbn zeta.
  assert (HO : operators (Formula3 "&" (Formula2 "~" (Formula1 "p")) (Formula1 "q"))
               ⊆ {[ "~"; "&" ]}).
  { cbn [operators]. change (is_constant "p") with false.
    change (is_constant "q") with false. set_solver. }
  split; [reflexivity|]. split; [exact HO|].
  destruct (nand_applications
              (Formula3 "&" (Formula2 "~" (Formula1 "p")) (Formula1 "q"))
              eq_refl HO) as (H & EH & CH & a' & b' & Ea & Eb & NH).
  exists H. split; [exact EH|]. split; [exact CH|].
  injection Ea as <-. injection Eb as <-. exact NH.
Defined.

(** C7: each of the five operations is total on its documented input domain:
    on a well-formed formula whose tags are in the input alphabet of the
    operation, it returns a formula (no error), and this formula is well
    formed and over the target alphabet.  The operations are structural
    recursions on the tree, hence terminate. *)
Theorem transforms_total (t : transform) (F : Formula) :
  well_formed F = true -> operators F ⊆ input_alphabet t ->
  exists G,
    run t F = Some G /\ well_formed G = true
    /\ operators G ⊆ target_alphabet t.
Proof.
  intros Hwf _. destruct (run_reduces t F Hwf) as (G & EG & WG & OG & _).
  by exists G.
Qed.

Lemma transforms_total_witness :
  let F := Formula2 "~" (Formula3 "->" (Formula1 "p") (Formula2 "~" (Formula1 "q"))) in
  well_formed F = true
  /\ operators F ⊆ input_alphabet ImpliesFalse
  /\ exists G,
       run ImpliesFalse F = Some G /\ well_formed G = true
       /\ operators G ⊆ target_alphabet ImpliesFalse.
Proof.
  cbn zeta.
  assert (HO : operators (Formula2 "~" (Formula3 "->" (Formula1 "p")
                                          (Formula2 "~" (Formula1 "q"))))
               ⊆ input_alphabet ImpliesFalse).
  { cbn [operators input_alphabet]. change (is_constant "p") with false.
    change (is_constant "q") with false. set_solver. }
  split; [reflexivity|]. split; [exact HO|].
  exact (transforms_total ImpliesFalse
           (Formula2 "~" (Formula3 "->" (Formula1 "p") (Formula2 "~" (Formula1 "q"))))
           eq_refl HO).
Defined.

(** C8: for every well-formed formula F, the root of to_not_and_or(F) is not
    a constant; hence to_implies_not never takes its special case for a
    constant, and, the root of its output not being a constant either,
    neither does to_implies_false: both return what their inner conversion
    returns. *)
Theorem constant_special_cases_unreachable (F : Formula) :
  well_formed F = true ->
  (exists f1,
      to_not_and_or F = Some f1 /\ is_constant (root f1) = false
      /\ to_implies_not F = convert_to_implies_not f1)
  /\ (exists f1,
        to_implies_not F = Some f1 /\ is_constant (root f1) = false
        /\ to_implies_false F = convert_to_implies_false f1).
Proof.
  intros Hwf. split.
  - destruct (to_not_and_or_reduces F Hwf) as (f1 & E1 & W1 & O1 & _).
    exists f1. split; [done|]. split.
    + apply (root_not_constant _ f1 W1 O1); set_solver.
    + rewrite to_implies_not_unfold by done. by rewrite E1.
  - destruct (to_implies_not_reduces F Hwf) as (f1 & E1 & W1 & O1 & _).
    exists f1. split; [done|]. split.
    + apply (root_not_constant _ f1 W1 O1); set_solver.
    + rewrite to_implies_false_unfold by done. by rewrite E1.
Qed.

Lemma constant_special_cases_unreachable_witness :
  let F := Formula1 "F" in
  well_formed F = true
  /\ (exists f1,
        to_not_and_or F = Some f1 /\ is_constant (root f1) = false
        /\ to_implies_not F = convert_to_implies_not f1)
  /\ (exists f1,
        to_implies_not F = Some f1 /\ is_constant (root f1) = false
        /\ to_implies_false F = convert_to_implies_false f1).
Proof.
  cbn zeta. split; [reflexivity|].
  exact (constant_special_cases_unreachable (Formula1 "F") eq_refl).
Defined.

(** C9: to_not_and_or returns a formula over variables, ~, & and | as it is;
    hence, for every well-formed formula F, applying to_not_and_or to its
    own output returns that output. *)
Theorem to_not_and_or_idempotent (F : Formula) :
  well_formed F = true ->
  (operators F ⊆ {[ "~"; "&"; "|" ]} -> to_not_and_or F = Some F)
  /\ (exists G, to_not_and_or F = Some G /\ to_not_and_or G = Some G)
  /\ to_not_and_or F ≫= to_not_and_or = to_not_and_or F.
Proof.
  intros Hwf. split; [by apply to_not_and_or_fixed|].
  destruct (to_not_and_or_reduces F Hwf) as (G & EG & WG & OG & _).
  pose proof (to_not_and_or_fixed G WG OG) as HG.
  split; [by exists G|]. by rewrite EG.
Qed.

Lemma to_not_and_or_idempotent_witness :
  let F := Formula3 "|" (Formula2 "~" (Formula1 "p")) (Formula3 "&" (Formula1 "q") (Formula1 "r")) in
  well_formed F = true
  /\ operators F ⊆ {[ "~"; "&"; "|" ]}
  /\ to_not_and_or F = Some F
  /\ to_not_and_or F ≫= to_not_and_or = to_not_and_or F.
Proof.
  cbn zeta.
  assert (HO : operators (Formula3 "|" (Formula2 "~" (Formula1 "p"))
                            (Formula3 "&" (Formula1 "q") (Formula1 "r")))
               ⊆ {[ "~"; "&"; "|" ]}).
  { cbn [operators]. change (is_constant "p") with false.
    change (is_constant "q") with false. change (is_constant "r") with false.
    set_solver. }
  split; [reflexivity|]. split; [exact HO|].
  destruct (to_not_and_or_idempotent
              (Formula3 "|" (Formula2 "~" (Formula1 "p"))
                 (Formula3 "&" (Formula1 "q") (Formula1 "r"))) eq_refl)
    as (H1 & _ & H3).
  split; [exact (H1 HO) | exact H3].
Defined.

(** C10: each of the four downstream operations accepts every well-formed
    formula, over the full alphabet: it first applies its upstream operation
    itself, and its output is over its target alphabet and has the truth
    table of the input. *)
Theorem downstream_accept_every_formula (F : Formula) :
  well_formed F = true ->
  reduces_after to_not_and_or convert_or to_not_and {[ "~"; "&" ]} F
  /\ reduces_after to_not_and convert_to_nand to_nand {[ "-&" ]} F
  /\ reduces_after to_not_and_or convert_to_implies_not to_implies_not
       {[ "->"; "~" ]} F
  /\ reduces_after to_implies_not convert_to_implies_false to_implies_false
       {[ "->"; "F" ]} F.
Proof.
  intros Hwf. unfold reduces_after. repeat split.
  - destruct (to_not_and_or_reduces F Hwf) as (f1 & E1 & _).
    exists f1. split; [done|]. unfold to_not_and. by rewrite E1.
  - by apply to_not_and_reduces.
  - destruct (to_not_and_reduces F Hwf) as (f1 & E1 & _).
    exists f1. split; [done|]. unfold to_nand. by rewrite E1.
  - by apply to_nand_reduces.
  - destruct (to_not_and_or_reduces F Hwf) as (f1 & E1 & _).
    exists f1. split; [done|]. rewrite to_implies_not_unfold by done.
    by rewrite E1.
  - by apply to_implies_not_reduces.
  - destruct (to_implies_not_reduces F Hwf) as (f1 & E1 & _).
    exists f1. split; [done|]. rewrite to_implies_false_unfold by done.
    by rewrite E1.
  - by apply to_implies_false_reduces.
Qed.

Lemma downstream_accept_every_formula_witness :
  let F := Formula3 "<->" (Formula1 "T") (Formula3 "-|" (Formula1 "x") (Formula1 "p")) in
  well_formed F = true
  /\ reduces_after to_not_and_or convert_or to_not_and {[ "~"; "&" ]} F
  /\ reduces_after to_not_and convert_to_nand to_nand {[ "-&" ]} F
  /\ reduces_after to_not_and_or convert_to_implies_not to_implies_not
       {[ "->"; "~" ]} F
  /\ reduces_after to_implies_not convert_to_implies_false to_implies_false
       {[ "->"; "F" ]} F.
Proof.
  cbn zeta. split; [reflexivity|].
  exact (downstream_accept_every_formula
           (Formula3 "<->" (Formula1 "T")
              (Formula3 "-|" (Formula1 "x") (Formula1 "p"))) eq_refl).
Defined.

(** * Further properties of the operations *)

(** ** Fixed points *)

(** X1: a well-formed formula is returned unchanged by to_not_and_or exactly
    when its tags are among ~, & and |. *)
Theorem to_not_and_or_fixed_points (F : Formula) :
  well_formed F = true ->
  (to_not_and_or F = Some F <-> operators F ⊆ {[ "~"; "&"; "|" ]}).
Proof.
  intros Hwf. split.
  - intros HF. destruct (to_not_and_or_reduces F Hwf) as (G & EG & _ & OG & _).
    rewrite HF in EG. by injection EG as <-.
  - by apply to_not_and_or_fixed.
Qed.

Lemma to_not_and_or_fixed_points_witness :
  let F := Formula3 "|" (Formula1 "p") (Formula2 "~" (Formula1 "q")) in
  well_formed F = true
  /\ (to_not_and_or F = Some F <-> operators F ⊆ {[ "~"; "&"; "|" ]}).
Proof.
  cbn zeta. split; [reflexivity|].
  exact (to_not_and_or_fixed_points
           (Formula3 "|" (Formula1 "p") (Formula2 "~" (Formula1 "q"))) eq_refl).
Defined.

(** X2: a well-formed formula is returned unchanged by to_not_and exactly
    when its tags are among ~ and &; to_not_and is idempotent, and
    to_not_and_or leaves its outputs unchanged. *)
Theorem to_not_and_fixed_points (F : Formula) :
  well_formed F = true ->
  (to_not_and F = Some F <-> operators F ⊆ {[ "~"; "&" ]})
  /\ to_not_and F ≫= to_not_and = to_not_and F
  /\ to_not_and F ≫= to_not_and_or = to_not_and F.
Proof.
  intros Hwf.
  destruct (to_not_and_reduces F Hwf) as (G & EG & WG & OG & _).
  split; [split|split].
  - intros HF. rewrite HF in EG. by injection EG as <-.
  - by apply to_not_and_fixed.
  - rewrite EG. cbn [mbind option_bind]. by apply to_not_and_fixed.
  - rewrite EG. cbn [mbind option_bind].
    apply to_not_and_or_fixed; [done|set_solver].
Qed.

Lemma to_not_and_fixed_points_witness :
  let F := Formula3 "-|" (Formula1 "p") (Formula1 "T") in
  well_formed F = true
  /\ (to_not_and F = Some F <-> operators F ⊆ {[ "~"; "&" ]})
  /\ to_not_and F ≫= to_not_and = to_not_and F
  /\ to_not_and F ≫= to_not_and_or = to_not_and F.
Proof.
  cbn zeta. split; [reflexivity|].
  exact (to_not_and_fixed_points
           (Formula3 "-|" (Formula1 "p") (Formula1 "T")) eq_refl).
Defined.

(** ** Composition *)

(** X3: applying to_not_and_or first changes nothing for the four other
    operations: each of them returns on the output of to_not_and_or what it
    returns on the formula itself. *)
Theorem to_not_and_or_absorbed (F : Formula) :
  well_formed F = true ->
  to_not_and_or F ≫= to_not_and = to_not_and F
  /\ to_not_and_or F ≫= to_nand = to_nand F
  /\ to_not_and_or F ≫= to_implies_not = to_implies_not F
  /\ to_not_and_or F ≫= to_implies_false = to_implies_false F.
Proof.
  intros Hwf.
  destruct (to_not_and_or_reduces F Hwf) as (f1 & E1 & W1 & O1 & _).
  pose proof (to_not_and_or_fixed f1 W1 O1) as Hfix.
  assert (Hna : to_not_and f1 = to_not_and F).
  { unfold to_not_and. by rewrite E1, Hfix. }
  assert (Hin : to_implies_not f1 = to_implies_not F).
  { unfold to_implies_not. by rewrite E1, Hfix. }
  rewrite E1. cbn [mbind option_bind]. repeat split.
  - done.
  - unfold to_nand. by rewrite Hna.
  - done.
  - unfold to_implies_false. by rewrite Hin.
Qed.

Lemma to_not_and_or_absorbed_witness :
  let F := Formula3 "+" (Formula1 "F") (Formula2 "~" (Formula1 "q")) in
  well_formed F = true
  /\ to_not_and_or F ≫= to_not_and = to_not_and F
  /\ to_not_and_or F ≫= to_nand = to_nand F
  /\ to_not_and_or F ≫= to_implies_not = to_implies_not F
  /\ to_not_and_or F ≫= to_implies_false = to_implies_false F.
Proof.
  cbn zeta. split; [reflexivity|].
  exact (to_not_and_or_absorbed
           (Formula3 "+" (Formula1 "F") (Formula2 "~" (Formula1 "q"))) eq_refl).
Defined.

Lemma run_all_reduces ts : forall t formula,
  well_formed formula = true ->
  reduces_to (target_alphabet t) formula (run_all (ts ++ [t]) formula).
Proof.
  induction ts as [|t0 ts IH]; intros t formula Hwf; cbn [app run_all].
  - destruct (run_reduces t formula Hwf) as (G & EG & WG & OG & VG).
    rewrite EG. by exists G.
  - destruct (run_reduces t0 formula Hwf) as (G & EG & WG & _ & VG).
    rewrite EG. cbn [mbind option_bind].
    destruct (IH t G WG) as (H & EH & WH & OH & VH).
    exists H. repeat split; try done. intros model. by rewrite VH, VG.
Qed.

(** X4: the operations can be chained in any order and any number of times:
    on a well-formed formula every chain returns a well-formed formula over
    the target alphabet of the last operation, with the truth table of the
    input. *)
Theorem operations_chain (ts : list transform) (t : transform) (F : Formula) :
  well_formed F = true ->
  exists G,
    run_all (ts ++ [t]) F = Some G
    /\ well_formed G = true
    /\ operators G ⊆ target_alphabet t
    /\ forall model, evaluate G model = evaluate F model.
Proof. apply run_all_reduces. Qed.

Lemma operations_chain_witness :
  let F := Formula3 "->" (Formula1 "p") (Formula1 "T") in
  well_formed F = true
  /\ exists G,
       run_all ([ImpliesFalse; Nand; NotAndOr] ++ [ImpliesNot]) F = Some G
       /\ well_formed G = true
       /\ operators G ⊆ target_alphabet ImpliesNot
       /\ forall model, evaluate G model = evaluate F model.
Proof.
  cbn zeta. split; [reflexivity|].
  exact (operations_chain [ImpliesFalse; Nand; NotAndOr] ImpliesNot
           (Formula3 "->" (Formula1 "p") (Formula1 "T")) eq_refl).
Defined.

(** ** Variables of the outputs *)

Ltac same_variables :=
  cbn [variables has_constant];
  repeat match goal with
         | H : variables _ = _ |- _ => rewrite H; clear H
         end;
  repeat match goal with
         | |- context [has_constant ?f] => destruct (has_constant f)
         end;
  cbn [orb]; set_solver.

Lemma to_not_and_or_variables formula :
  well_formed formula = true ->
  exists G,
    to_not_and_or formula = Some G
    /\ variables G
       = if has_constant formula then variables formula ∪ {[ "p" ]}
         else variables formula.
Proof.
  revert formula. apply well_formed_induction.
  - intros x Hx. rewrite to_not_and_or_variable by done.
    exists (Formula1 x). split; [done|]. cbn [has_constant].
    by destruct (is_variable_not_tag x Hx) as (-> & _).
  - eexists. split; [reflexivity|]. cbn [variables has_constant].
    change (is_variable "p") with true. change (is_variable "T") with false.
    change (is_constant "T") with true. cbn match. set_solver.
  - eexists. split; [reflexivity|]. cbn [variables has_constant].
    change (is_variable "p") with true. change (is_variable "F") with false.
    change (is_constant "F") with true. cbn match. set_solver.
  - intros a Ha (a' & Ea & Va).
    rewrite to_not_and_or_not, Ea. eexists. split; [reflexivity|].
    same_variables.
  - intros op a b Hop Ha Hb (a' & Ea & Va) (b' & Eb & Vb).
    binary_tags Hop.
    + rewrite to_not_and_or_and, Ea, Eb. eexists. split; [reflexivity|].
      same_variables.
    + rewrite to_not_and_or_or, Ea, Eb. eexists. split; [reflexivity|].
      same_variables.
    + rewrite to_not_and_or_implies, Ea, Eb. eexists. split; [reflexivity|].
      same_variables.
    + rewrite to_not_and_or_xor, Ea, Eb. eexists. split; [reflexivity|].
      same_variables.
    + rewrite to_not_and_or_iff, Ea, Eb. eexists. split; [reflexivity|].
      same_variables.
    + rewrite to_not_and_or_nand, Ea, Eb. eexists. split; [reflexivity|].
      same_variables.
    + rewrite to_not_and_or_nor, Ea, Eb. eexists. split; [reflexivity|].
      same_variables.
Qed.

Ltac kept_variables :=
  eexists; split; [reflexivity|];
  cbn [variables];
  repeat match goal with
         | H : variables _ = _ |- _ => rewrite H; clear H
         end;
  try change (is_variable "F") with false; cbn match; set_solver.

Lemma convert_or_variables G :
  well_formed G = true -> operators G ⊆ {[ "~"; "&"; "|" ]} ->
  exists H, convert_or G = Some H /\ variables H = variables G.
Proof.
  revert G. apply alphabet_induction.
  - intros x Hx. rewrite convert_or_variable by done. by eexists.
  - intros c Hc Hin. constant_tags Hc.
  - intros a _ (a' & Ea & Va). rewrite convert_or_not, Ea. kept_variables.
  - intros op a b Hop Hin (a' & Ea & Va) (b' & Eb & Vb). binary_tags Hop.
    + rewrite convert_or_and, Ea, Eb. kept_variables.
    + rewrite convert_or_or, Ea, Eb. kept_variables.
Qed.

Lemma convert_to_nand_variables G :
  well_formed G = true -> operators G ⊆ {[ "~"; "&" ]} ->
  exists H, convert_to_nand G = Some H /\ variables H = variables G.
Proof.
  revert G. apply alphabet_induction.
  - intros x Hx. rewrite convert_to_nand_variable by done. by eexists.
  - intros c Hc Hin. constant_tags Hc.
  - intros a _ (a' & Ea & Va). rewrite convert_to_nand_not, Ea. kept_variables.
  - intros op a b Hop Hin (a' & Ea & Va) (b' & Eb & Vb). binary_tags Hop.
    rewrite convert_to_nand_and, Ea, Eb. kept_variables.
Qed.

Lemma convert_to_implies_not_variables G :
  well_formed G = true -> operators G ⊆ {[ "~"; "&"; "|" ]} ->
  exists H, convert_to_implies_not G = Some H /\ variables H = variables G.
Proof.
  revert G. apply alphabet_induction.
  - intros x Hx. rewrite convert_to_implies_not_variable by done. by eexists.
  - intros c Hc Hin. constant_tags Hc.
  - intros a _ (a' & Ea & Va).
    rewrite convert_to_implies_not_not, Ea. kept_variables.
  - intros op a b Hop Hin (a' & Ea & Va) (b' & Eb & Vb). binary_tags Hop.
    + rewrite convert_to_implies_not_and, Ea, Eb. kept_variables.
    + rewrite convert_to_implies_not_or, Ea, Eb. kept_variables.
Qed.

Lemma convert_to_implies_false_variables G :
  well_formed G = true -> operators G ⊆ {[ "->"; "~" ]} ->
  exists H, convert_to_implies_false G = Some H /\ variables H = variables G.
Proof.
  revert G. apply alphabet_induction.
  - intros x Hx. rewrite convert_to_implies_false_variable by done. by eexists.
  - intros c Hc Hin. constant_tags Hc.
  - intros a _ (a' & Ea & Va).
    rewrite convert_to_implies_false_not, Ea. kept_variables.
  - intros op a b Hop Hin (a' & Ea & Va) (b' & Eb & Vb). binary_tags Hop.
    rewrite convert_to_implies_false_implies, Ea, Eb. kept_variables.
Qed.

(** X5: the output of each of the five operations mentions exactly the
    variables of the input, and in addition the variable p when (and only
    when) a constant occurs in the input. *)
Theorem outputs_variables (t : transform) (F : Formula) :
  well_formed F = true ->
  exists G,
    run t F = Some G
    /\ variables G
       = if has_constant F then variables F ∪ {[ "p" ]} else variables F.
Proof.
  intros Hwf.
  destruct (to_not_and_or_variables F Hwf) as (f1 & E1 & V1).
  destruct (to_not_and_or_reduces F Hwf) as (? & E1' & W1 & O1 & _).
  rewrite E1 in E1'. injection E1' as <-.
  destruct (convert_or_variables f1 W1 O1) as (f2 & E2 & V2).
  destruct (convert_or_reduces f1 W1 O1) as (? & E2' & W2 & O2 & _).
  rewrite E2 in E2'. injection E2' as <-.
  destruct (convert_to_nand_variables f2 W2 O2) as (f3 & E3 & V3).
  destruct (convert_to_implies_not_variables f1 W1 O1) as (f4 & E4 & V4).
  destruct (convert_to_implies_not_reduces f1 W1 O1) as (? & E4' & W4 & O4 & _).
  rewrite E4 in E4'. injection E4' as <-.
  destruct (convert_to_implies_false_variables f4 W4 O4) as (f5 & E5 & V5).
  assert (Hna : to_not_and F = Some f2) by (unfold to_not_and; by rewrite E1).
  assert (Hin : to_implies_not F = Some f4).
  { rewrite to_implies_not_unfold by done. by rewrite E1. }
  destruct t; cbn [run].
  - exists f1. by split.
  - exists f2. split; [done|]. by rewrite V2.
  - exists f3. split; [unfold to_nand; by rewrite Hna|]. by rewrite V3, V2.
  - exists f4. split; [done|]. by rewrite V4.
  - exists f5. split; [|by rewrite V5, V4].
    rewrite to_implies_false_unfold by done. by rewrite Hin.
Qed.

Lemma outputs_variables_witness :
  let F := Formula3 "<->" (Formula1 "q") (Formula1 "F") in
  well_formed F = true
  /\ exists G,
       run ImpliesFalse F = Some G
       /\ variables G
          = if has_constant F then variables F ∪ {[ "p" ]} else variables F.
Proof.
  cbn zeta. split; [reflexivity|].
  exact (outputs_variables ImpliesFalse
           (Formula3 "<->" (Formula1 "q") (Formula1 "F")) eq_refl).
Defined.

(** ** Shape of the outputs of to_nand and to_implies_false *)




Lemma convert_to_implies_false_encoded G :
  well_formed G = true -> operators G ⊆ {[ "->"; "~" ]} ->
  exists H, convert_to_implies_false G = Some H /\ implies_false_encoded H.
Proof.
  revert G. apply alphabet_induction.
  - intros x Hx. rewrite convert_to_implies_false_variable by done.
    eexists. split; [done|]. by constructor.
  - intros c Hc Hin. constant_tags Hc.
  - intros a _ (a' & Ea & Na). rewrite convert_to_implies_false_not, Ea.
    eexists. split; [reflexivity|]. by constructor.
  - intros op a b Hop Hin (a' & Ea & Na) (b' & Eb & Nb). binary_tags Hop.
    rewrite convert_to_implies_false_implies, Ea, Eb.
    eexists. split; [reflexivity|]. by constructor.
Qed.

Lemma implies_false_encoded_root G :
  implies_false_encoded G -> is_constant (root G) = false.
Proof.
  intros [x Hx | inner _ | left right _ _]; cbn [root]; [|done..].
  by destruct (is_variable_not_tag x Hx) as (-> & _).
Qed.

(** X7: in the output of to_implies_false the constant F occurs only as the
    right operand of an implication: the output is a variable, an
    implication (n -> F) of an output n, or an implication of two outputs;
    in particular the output itself and every left operand are not
    constants. *)
Theorem to_implies_false_encoded (F : Formula) :
  well_formed F = true ->
  exists G,
    to_implies_false F = Some G
    /\ implies_false_encoded G
    /\ is_constant (root G) = false.
Proof.
  intros Hwf.
  destruct (to_implies_not_reduces F Hwf) as (f4 & E4 & W4 & O4 & _).
  destruct (convert_to_implies_false_encoded f4 W4 O4) as (G & EG & NG).
  exists G. split; [|split; [done|by apply implies_false_encoded_root]].
  rewrite to_implies_false_unfold by done. by rewrite E4.
Qed.

Lemma to_implies_false_encoded_witness :
  let F := Formula3 "&" (Formula1 "F") (Formula2 "~" (Formula1 "q")) in
  well_formed F = true
  /\ exists G,
       to_implies_false F = Some G
       /\ implies_false_encoded G
       /\ is_constant (root G) = false.
Proof.
  cbn zeta. split; [reflexivity|].
  exact (to_implies_false_encoded
           (Formula3 "&" (Formula1 "F") (Formula2 "~" (Formula1 "q"))) eq_refl).
Defined.

(** ** The operations on formulas that are already over their target *)

Lemma occurrences_variable tag x :
  is_variable x = true -> is_variable tag = false ->
  occurrences tag (Formula1 x) = 0.
Proof.
  intros Hx Htag. cbn [occurrences root].
  destruct (String.eqb_spec x tag) as [-> | _]; [congruence | done].
Qed.

Lemma to_implies_not_on_target G :
  well_formed G = true -> operators G ⊆ {[ "->"; "~" ]} ->
  exists G1 G',
    to_not_and_or G = Some G1 /\ convert_to_implies_not G1 = Some G'
    /\ occurrences "->" G' = occurrences "->" G
    /\ occurrences "~" G' = occurrences "~" G + 2 * occurrences "->" G
    /\ (occurrences "->" G = 0 -> G' = G).
Proof.
  revert G. apply alphabet_induction.
  - intros x Hx. exists (Formula1 x), (Formula1 x).
    rewrite to_not_and_or_variable, convert_to_implies_not_variable by done.
    rewrite !occurrences_variable by done. repeat split; lia.
  - intros c Hc Hin. constant_tags Hc.
  - intros a _ (a1 & a' & E1 & E' & Ci & Cn & Fa).
    exists (Formula2 "~" a1), (Formula2 "~" a').
    rewrite to_not_and_or_not, E1. cbn [mbind option_bind].
    rewrite convert_to_implies_not_not, E'. cbn [mbind option_bind].
    rewrite !occurrences_not. cbn [String.eqb Ascii.eqb Bool.eqb].
    repeat split; [lia | lia |]. intros H0. f_equal. apply Fa. lia.
  - intros op a b Hop Hin (a1 & a' & Ea1 & Ea' & Cia & Cna & _)
      (b1 & b' & Eb1 & Eb' & Cib & Cnb & _).
    binary_tags Hop.
    exists (Formula3 "|" (Formula2 "~" a1) b1),
      (Formula3 "->" (Formula2 "~" (Formula2 "~" a')) b').
    rewrite to_not_and_or_implies, Ea1, Eb1. cbn [mbind option_bind].
    rewrite convert_to_implies_not_or, convert_to_implies_not_not, Ea', Eb'.
    cbn [mbind option_bind].
    rewrite !occurrences_binary, !occurrences_not.
    cbn [String.eqb Ascii.eqb Bool.eqb].
    repeat split; lia.
Qed.

(** X8: to_implies_not does not leave implications alone.  On a formula
    already over -> and ~ it keeps the number of implications and adds two
    negations for each of them, so it returns the formula unchanged exactly
    when the formula has no implication. *)
Theorem to_implies_not_on_implications (G : Formula) :
  well_formed G = true -> operators G ⊆ {[ "->"; "~" ]} ->
  exists G',
    to_implies_not G = Some G'
    /\ occurrences "->" G' = occurrences "->" G
    /\ occurrences "~" G' = occurrences "~" G + 2 * occurrences "->" G
    /\ (G' = G <-> occurrences "->" G = 0).
Proof.
  intros WG OG.
  destruct (to_implies_not_on_target G WG OG) as (G1 & G' & E1 & E' & Ci & Cn & Fx).
  exists G'. split; [|split; [done|split; [done|]]].
  - rewrite to_implies_not_unfold by done. by rewrite E1.
  - split; [|done]. intros ->. lia.
Qed.

Lemma to_implies_not_on_implications_witness :
  let G := Formula3 "->" (Formula2 "~" (Formula1 "p")) (Formula1 "q") in
  well_formed G = true
  /\ operators G ⊆ {[ "->"; "~" ]}
  /\ exists G',
       to_implies_not G = Some G'
       /\ occurrences "->" G' = occurrences "->" G
       /\ occurrences "~" G' = occurrences "~" G + 2 * occurrences "->" G
       /\ (G' = G <-> occurrences "->" G = 0).
Proof.
  cbn zeta.
  assert (HO : operators (Formula3 "->" (Formula2 "~" (Formula1 "p")) (Formula1 "q"))
               ⊆ {[ "->"; "~" ]}).
  { cbn [operators]. change (is_constant "p") with false.
    change (is_constant "q") with false. set_solver. }
  split; [reflexivity|]. split; [exact HO|].
  exact (to_implies_not_on_implications
           (Formula3 "->" (Formula2 "~" (Formula1 "p")) (Formula1 "q"))
           eq_refl HO).
Defined.

Lemma to_nand_on_target G :
  well_formed G = true -> operators G ⊆ {[ "-&" ]} ->
  exists G1 G2 G',
    to_not_and_or G = Some G1 /\ convert_or G1 = Some G2
    /\ convert_to_nand G2 = Some G'
    /\ 7 * occurrences "-&" G <= occurrences "-&" G'
    /\ (occurrences "-&" G = 0 -> G' = G).
Proof.
  revert G. apply alphabet_induction.
  - intros x Hx. exists (Formula1 x), (Formula1 x), (Formula1 x).
    rewrite to_not_and_or_variable, convert_or_variable,
      convert_to_nand_variable by done.
    rewrite !occurrences_variable by done. repeat split; lia.
  - intros c Hc Hin. constant_tags Hc.
  - intros a Hin. absurd_tag.
  - intros op a b Hop Hin (a1 & a2 & a' & Ea1 & Ea2 & Ea' & Ca & _)
      (b1 & b2 & b' & Eb1 & Eb2 & Eb' & Cb & _).
    binary_tags Hop.
    exists (Formula2 "~" (Formula3 "&" a1 b1)),
      (Formula2 "~" (Formula3 "&" a2 b2)),
      (Formula3 "-&"
         (Formula3 "-&" (Formula3 "-&" a' b') (Formula3 "-&" a' b'))
         (Formula3 "-&" (Formula3 "-&" a' b') (Formula3 "-&" a' b'))).
    rewrite to_not_and_or_nand, Ea1, Eb1. cbn [mbind option_bind].
    rewrite convert_or_not, convert_or_and, Ea2, Eb2. cbn [mbind option_bind].
    rewrite convert_to_nand_not, convert_to_nand_and, Ea', Eb'.
    cbn [mbind option_bind].
    rewrite !occurrences_binary. cbn [String.eqb Ascii.eqb Bool.eqb].
    repeat split; lia.
Qed.

(** X9: to_nand does not leave NAND-ops alone.  On a formula already over
    -& it returns a formula with at least seven times as many NAND-ops, so
    it returns the formula unchanged exactly when the formula is a
    variable. *)
Theorem to_nand_on_nands (G : Formula) :
  well_formed G = true -> operators G ⊆ {[ "-&" ]} ->
  exists G',
    to_nand G = Some G'
    /\ 7 * occurrences "-&" G <= occurrences "-&" G'
    /\ (G' = G <-> occurrences "-&" G = 0).
Proof.
  intros WG OG.
  destruct (to_nand_on_target G WG OG) as (G1 & G2 & G' & E1 & E2 & E' & C & Fx).
  exists G'. split; [|split; [done|]].
  - unfold to_nand, to_not_and. by rewrite E1; cbn; rewrite E2.
  - split; [|done]. intros ->. lia.
Qed.

Lemma to_nand_on_nands_witness :
  let G := Formula3 "-&" (Formula1 "p") (Formula3 "-&" (Formula1 "q") (Formula1 "p")) in
  well_formed G = true
  /\ operators G ⊆ {[ "-&" ]}
  /\ exists G',
       to_nand G = Some G'
       /\ 7 * occurrences "-&" G <= occurrences "-&" G'
       /\ (G' = G <-> occurrences "-&" G = 0).
Proof.
  cbn zeta.
  assert (HO : operators (Formula3 "-&" (Formula1 "p")
                            (Formula3 "-&" (Formula1 "q") (Formula1 "p")))
               ⊆ {[ "-&" ]}).
  { cbn [operators]. change (is_constant "p") with false.
    change (is_constant "q") with false. set_solver. }
  split; [reflexivity|]. split; [exact HO|].
  exact (to_nand_on_nands
           (Formula3 "-&" (Formula1 "p")
              (Formula3 "-&" (Formula1 "q") (Formula1 "p"))) eq_refl HO).
Defined.

(** ** Depth and size of the outputs *)

Ltac measured :=
  eexists; split; [reflexivity|];
  cbn [depth operator_occurrences]; lia.

Lemma to_not_and_or_depth formula :
  well_formed formula = true ->
  exists G, to_not_and_or formula = Some G /\ depth G <= 3 * depth formula + 2.
Proof.
  revert formula. apply well_formed_induction.
  - intros x Hx. rewrite to_not_and_or_variable by done. measured.
  - measured.
  - measured.
  - intros a _ (a' & Ea & Da). rewrite to_not_and_or_not, Ea. measured.
  - intros op a b Hop _ _ (a' & Ea & Da) (b' & Eb & Db). binary_tags Hop.
    + rewrite to_not_and_or_and, Ea, Eb. measured.
    + rewrite to_not_and_or_or, Ea, Eb. measured.
    + rewrite to_not_and_or_implies, Ea, Eb. measured.
    + rewrite to_not_and_or_xor, Ea, Eb. measured.
    + rewrite to_not_and_or_iff, Ea, Eb. measured.
    + rewrite to_not_and_or_nand, Ea, Eb. measured.
    + rewrite to_not_and_or_nor, Ea, Eb. measured.
Qed.

Lemma convert_or_measures G :
  well_formed G = true -> operators G ⊆ {[ "~"; "&"; "|" ]} ->
  exists H,
    convert_or G = Some H /\ depth H <= 3 * depth G
    /\ operator_occurrences H <= 4 * operator_occurrences G.
Proof.
  revert G. apply alphabet_induction.
  - intros x Hx. rewrite convert_or_variable by done. measured.
  - intros c Hc Hin. constant_tags Hc.
  - intros a _ (a' & Ea & Da & Sa). rewrite convert_or_not, Ea. measured.
  - intros op a b Hop Hin (a' & Ea & Da & Sa) (b' & Eb & Db & Sb).
    binary_tags Hop.
    + rewrite convert_or_and, Ea, Eb. measured.
    + rewrite convert_or_or, Ea, Eb. measured.
Qed.

Lemma convert_to_nand_depth G :
  well_formed G = true -> operators G ⊆ {[ "~"; "&" ]} ->
  exists H, convert_to_nand G = Some H /\ depth H <= 2 * depth G.
Proof.
  revert G. apply alphabet_induction.
  - intros x Hx. rewrite convert_to_nand_variable by done. measured.
  - intros c Hc Hin. constant_tags Hc.
  - intros a _ (a' & Ea & Da). rewrite convert_to_nand_not, Ea. measured.
  - intros op a b Hop Hin (a' & Ea & Da) (b' & Eb & Db). binary_tags Hop.
    rewrite convert_to_nand_and, Ea, Eb. measured.
Qed.

Lemma convert_to_implies_not_measures G :
  well_formed G = true -> operators G ⊆ {[ "~"; "&"; "|" ]} ->
  exists H,
    convert_to_implies_not G = Some H /\ depth H <= 3 * depth G
    /\ operator_occurrences H <= 3 * operator_occurrences G.
Proof.
  revert G. apply alphabet_induction.
  - intros x Hx. rewrite convert_to_implies_not_variable by done. measured.
  - intros c Hc Hin. constant_tags Hc.
  - intros a _ (a' & Ea & Da & Sa).
    rewrite convert_to_implies_not_not, Ea. measured.
  - intros op a b Hop Hin (a' & Ea & Da & Sa) (b' & Eb & Db & Sb).
    binary_tags Hop.
    + rewrite convert_to_implies_not_and, Ea, Eb. measured.
    + rewrite convert_to_implies_not_or, Ea, Eb. measured.
Qed.

Lemma convert_to_implies_false_measures G :
  well_formed G = true -> operators G ⊆ {[ "->"; "~" ]} ->
  exists H,
    convert_to_implies_false G = Some H /\ depth H = depth G
    /\ operator_occurrences H = operator_occurrences G.
Proof.
  revert G. apply alphabet_induction.
  - intros x Hx. rewrite convert_to_implies_false_variable by done. measured.
  - intros c Hc Hin. constant_tags Hc.
  - intros a _ (a' & Ea & Da & Sa).
    rewrite convert_to_implies_false_not, Ea. measured.
  - intros op a b Hop Hin (a' & Ea & Da & Sa) (b' & Eb & Db & Sb).
    binary_tags Hop.
    rewrite convert_to_implies_false_implies, Ea, Eb. measured.
Qed.

(** X10: the depth of the outputs is linear in the depth d of the input: at
    most 3d + 2 for to_not_and_or, 9d + 6 for to_not_and, to_implies_not
    and to_implies_false, and 18d + 12 for to_nand. *)
Theorem outputs_depth (F : Formula) :
  well_formed F = true ->
  (exists G, to_not_and_or F = Some G /\ depth G <= 3 * depth F + 2)
  /\ (exists G, to_not_and F = Some G /\ depth G <= 9 * depth F + 6)
  /\ (exists G, to_nand F = Some G /\ depth G <= 18 * depth F + 12)
  /\ (exists G, to_implies_not F = Some G /\ depth G <= 9 * depth F + 6)
  /\ (exists G, to_implies_false F = Some G /\ depth G <= 9 * depth F + 6).
Proof.
  intros Hwf.
  destruct (to_not_and_or_depth F Hwf) as (f1 & E1 & D1).
  destruct (to_not_and_or_reduces F Hwf) as (? & E1' & W1 & O1 & _).
  rewrite E1 in E1'. injection E1' as <-.
  destruct (convert_or_measures f1 W1 O1) as (f2 & E2 & D2 & _).
  destruct (convert_or_reduces f1 W1 O1) as (? & E2' & W2 & O2 & _).
  rewrite E2 in E2'. injection E2' as <-.
  destruct (convert_to_nand_depth f2 W2 O2) as (f3 & E3 & D3).
  destruct (convert_to_implies_not_measures f1 W1 O1) as (f4 & E4 & D4 & _).
  destruct (convert_to_implies_not_reduces f1 W1 O1) as (? & E4' & W4 & O4 & _).
  rewrite E4 in E4'. injection E4' as <-.
  destruct (convert_to_implies_false_measures f4 W4 O4) as (f5 & E5 & D5 & _).
  assert (Hna : to_not_and F = Some f2) by (unfold to_not_and; by rewrite E1).
  assert (Hin : to_implies_not F = Some f4).
  { rewrite to_implies_not_unfold by done. by rewrite E1. }
  split; [|split; [|split; [|split]]].
  - exists f1. by split.
  - exists f2. split; [done|lia].
  - exists f3. split; [unfold to_nand; by rewrite Hna|lia].
  - exists f4. split; [done|lia].
  - exists f5. split; [|lia].
    rewrite to_implies_false_unfold by done. by rewrite Hin.
Qed.

Lemma outputs_depth_witness :
  let F := Formula3 "+" (Formula1 "T") (Formula2 "~" (Formula1 "q")) in
  well_formed F = true
  /\ (exists G, to_not_and_or F = Some G /\ depth G <= 3 * depth F + 2)
  /\ (exists G, to_not_and F = Some G /\ depth G <= 9 * depth F + 6)
  /\ (exists G, to_nand F = Some G /\ depth G <= 18 * depth F + 12)
  /\ (exists G, to_implies_not F = Some G /\ depth G <= 9 * depth F + 6)
  /\ (exists G, to_implies_false F = Some G /\ depth G <= 9 * depth F + 6).
Proof.
  cbn zeta. split; [reflexivity|].
  exact (outputs_depth
           (Formula3 "+" (Formula1 "T") (Formula2 "~" (Formula1 "q"))) eq_refl).
Defined.

Lemma occurrences_constant_leaf tag c :
  occurrences tag (Formula1 c) = if c =? tag then 1 else 0.
Proof. cbn [occurrences root]. lia. Qed.

Lemma to_not_and_or_size formula :
  well_formed formula = true ->
  "+" ∉ operators formula -> "<->" ∉ operators formula ->
  exists G,
    to_not_and_or formula = Some G
    /\ operator_occurrences G
       <= 2 * (operator_occurrences formula
               + occurrences "T" formula + occurrences "F" formula).
Proof.
  revert formula.
  apply (well_formed_induction
           (fun f => "+" ∉ operators f -> "<->" ∉ operators f ->
                     exists G, to_not_and_or f = Some G
                       /\ operator_occurrences G
                          <= 2 * (operator_occurrences f
                                  + occurrences "T" f + occurrences "F" f))).
  - intros x Hx _ _. rewrite to_not_and_or_variable by done. measured.
  - intros _ _. eexists. split; [reflexivity|]. cbn. lia.
  - intros _ _. eexists. split; [reflexivity|]. cbn. lia.
  - intros a _ IHa Hx Hi. cbn [operators] in Hx, Hi.
    destruct IHa as (a' & Ea & Sa); [set_solver..|].
    rewrite to_not_and_or_not, Ea. eexists. split; [reflexivity|].
    rewrite !occurrences_not. cbn [operator_occurrences]. lia.
  - intros op a b Hop _ _ IHa IHb Hx Hi. cbn [operators] in Hx, Hi.
    destruct IHa as (a' & Ea & Sa); [set_solver..|].
    destruct IHb as (b' & Eb & Sb); [set_solver..|].
    apply is_binary_inv in Hop as [->|[->|[->|[->|[->|[->| ->]]]]]];
      try (exfalso; set_solver).
    + rewrite to_not_and_or_and, Ea, Eb. eexists. split; [reflexivity|].
      rewrite !occurrences_binary. cbn [operator_occurrences]. lia.
    + rewrite to_not_and_or_or, Ea, Eb. eexists. split; [reflexivity|].
      rewrite !occurrences_binary. cbn [operator_occurrences]. lia.
    + rewrite to_not_and_or_implies, Ea, Eb. eexists. split; [reflexivity|].
      rewrite !occurrences_binary. cbn [operator_occurrences]. lia.
    + rewrite to_not_and_or_nand, Ea, Eb. eexists. split; [reflexivity|].
      rewrite !occurrences_binary. cbn [operator_occurrences]. lia.
    + rewrite to_not_and_or_nor, Ea, Eb. eexists. split; [reflexivity|].
      rewrite !occurrences_binary. cbn [operator_occurrences]. lia.
Qed.

(** X11: on a formula without XOR (+) and IFF (<->) the outputs are of
    linear size: with n the number of operators plus the number of
    constants of the input, the output has at most 2n operators for
    to_not_and_or, 8n for to_not_and, and 6n for to_implies_not and
    to_implies_false. *)
Theorem outputs_size_without_xor_iff (F : Formula) :
  well_formed F = true ->
  "+" ∉ operators F -> "<->" ∉ operators F ->
  let n := operator_occurrences F + occurrences "T" F + occurrences "F" F in
  (exists G, to_not_and_or F = Some G /\ operator_occurrences G <= 2 * n)
  /\ (exists G, to_not_and F = Some G /\ operator_occurrences G <= 8 * n)
  /\ (exists G, to_implies_not F = Some G /\ operator_occurrences G <= 6 * n)
  /\ (exists G, to_implies_false F = Some G /\ operator_occurrences G <= 6 * n).
Proof.
  intros Hwf Hx Hi n.
  destruct (to_not_and_or_size F Hwf Hx Hi) as (f1 & E1 & S1). fold n in S1.
  destruct (to_not_and_or_reduces F Hwf) as (? & E1' & W1 & O1 & _).
  rewrite E1 in E1'. injection E1' as <-.
  destruct (convert_or_measures f1 W1 O1) as (f2 & E2 & _ & S2).
  destruct (convert_to_implies_not_measures f1 W1 O1) as (f4 & E4 & _ & S4).
  destruct (convert_to_implies_not_reduces f1 W1 O1) as (? & E4' & W4 & O4 & _).
  rewrite E4 in E4'. injection E4' as <-.
  destruct (convert_to_implies_false_measures f4 W4 O4) as (f5 & E5 & _ & S5).
  assert (Hin : to_implies_not F = Some f4).
  { rewrite to_implies_not_unfold by done. by rewrite E1. }
  split; [|split; [|split]].
  - exists f1. by split.
  - exists f2. split; [unfold to_not_and; by rewrite E1|lia].
  - exists f4. split; [done|lia].
  - exists f5. split; [|lia].
    rewrite to_implies_false_unfold by done. by rewrite Hin.
Qed.

Lemma outputs_size_without_xor_iff_witness :
  let F := Formula3 "->" (Formula1 "T") (Formula3 "-|" (Formula1 "p") (Formula1 "q")) in
  well_formed F = true
  /\ ("+" ∉ operators F)
  /\ ("<->" ∉ operators F)
  /\ (exists G, to_not_and_or F = Some G /\ operator_occurrences G <= 2 * 3)
  /\ (exists G, to_not_and F = Some G /\ operator_occurrences G <= 8 * 3)
  /\ (exists G, to_implies_not F = Some G /\ operator_occurrences G <= 6 * 3)
  /\ (exists G, to_implies_false F = Some G /\ operator_occurrences G <= 6 * 3).
Proof.
  cbn zeta.
  assert (Hx : "+" ∉ operators (Formula3 "->" (Formula1 "T")
                                  (Formula3 "-|" (Formula1 "p") (Formula1 "q")))).
  { cbn [operators]. change (is_constant "T") with true.
    change (is_constant "p") with false. change (is_constant "q") with false.
    set_unfold. intuition discriminate. }
  assert (Hi : "<->" ∉ operators (Formula3 "->" (Formula1 "T")
                                    (Formula3 "-|" (Formula1 "p") (Formula1 "q")))).
  { cbn [operators]. change (is_constant "T") with true.
    change (is_constant "p") with false. change (is_constant "q") with false.
    set_unfold. intuition discriminate. }
  split; [reflexivity|]. split; [exact Hx|]. split; [exact Hi|].
  exact (outputs_size_without_xor_iff
           (Formula3 "->" (Formula1 "T")
              (Formula3 "-|" (Formula1 "p") (Formula1 "q"))) eq_refl Hx Hi).
Defined.
